(** * script/hassfest/mypy_config.py: generation and validation of mypy.ini

    A shallow embedding of [generate_and_validate], [validate] and
    [generate], together with the parts of the Python runtime they rely on
    ([str] methods, text-mode file reads, [configparser.ConfigParser],
    [pathlib.Path] existence predicates).

    Characters are modelled by [ascii], i.e. code points below 256; Python
    text containing larger code points is outside the model.  The platform
    is POSIX: [os.path.sep] is "/" and text-mode writes do not translate
    newlines. *)

From Stdlib Require Import ZArith NArith String Ascii List DecimalString Lia.
From stdpp Require Import gmap strings list fin_maps.

Open Scope string_scope.
Open Scope list_scope.

(** ** Python [str] operations *)

Module PyStr.

Definition LF : ascii := "010"%char.
Definition CR : ascii := "013"%char.
Definition TAB : ascii := "009"%char.

(** One-character string holding a line feed. *)
Definition nl : string := String LF "".

(** [str.isspace] on one code point below 256: the characters that
    [str.strip()] with no argument removes. *)
Definition isspace (c : ascii) : bool :=
  let n := N_of_ascii c in
  ((9 <=? n) && (n <=? 13) || (28 <=? n) && (n <=? 32)
   || (n =? 133) || (n =? 160))%N.

(** [s.lstrip()] *)
Fixpoint lstrip (s : string) : string :=
  match s with
  | "" => ""
  | String c r => if isspace c then lstrip r else s
  end.

(** [s.rstrip()] *)
Fixpoint rstrip (s : string) : string :=
  match s with
  | "" => ""
  | String c r =>
      match rstrip r with
      | "" => if isspace c then "" else String c ""
      | r' => String c r'
      end
  end.

(** [s.strip()] *)
Definition strip (s : string) : string := rstrip (lstrip s).

(** [s.startswith(p)] *)
Fixpoint startswith (s p : string) {struct p} : bool :=
  match p, s with
  | "", _ => true
  | String _ _, "" => false
  | String a p', String b s' => Ascii.eqb a b && startswith s' p'
  end.
#[global] Arguments startswith : simpl never.

(** [s.endswith(p)] *)
Fixpoint endswith (s p : string) : bool :=
  String.eqb s p ||
  match s with
  | "" => false
  | String _ s' => endswith s' p
  end.

(** [s[:-n]] for a positive [n]: all but the last [n] characters, the
    empty string when [s] is shorter than [n]. *)
Definition slice_to_neg (n : nat) (s : string) : string :=
  substring 0 (String.length s - n) s.

(** [s.replace(old, new)] where [old] is a single character. *)
Fixpoint replace (old : ascii) (new : string) (s : string) : string :=
  match s with
  | "" => ""
  | String c r =>
      if Ascii.eqb c old then new +:+ replace old new r
      else String c (replace old new r)
  end.

(** [sep.join(l)] *)
Fixpoint join (sep : string) (l : list string) : string :=
  match l with
  | [] => ""
  | [x] => x
  | x :: r => x +:+ sep +:+ join sep r
  end.

(** [str(x)] for an [int] *)
Definition str_int (x : Z) : string := NilZero.string_of_int (Z.to_int x).

(** [c.lower()] on one code point below 256. *)
Definition lower_char (c : ascii) : ascii :=
  let n := N_of_ascii c in
  if ((65 <=? n) && (n <=? 90)
      || (192 <=? n) && (n <=? 222) && negb (n =? 215))%N
  then ascii_of_N (n + 32) else c.

(** [s.lower()] *)
Fixpoint lower (s : string) : string :=
  match s with
  | "" => ""
  | String c r => String (lower_char c) (lower r)
  end.

(** Newline translation of a text-mode read ([newline=None]): "\r\n" and
    a lone "\r" both become "\n". *)
Fixpoint universal_newlines (s : string) : string :=
  match s with
  | "" => ""
  | String c r =>
      if Ascii.eqb c CR then
        match r with
        | String c' r' =>
            if Ascii.eqb c' LF then String LF (universal_newlines r')
            else String LF (universal_newlines r)
        | "" => String LF ""
        end
      else String c (universal_newlines r)
  end.

(** Splitting a translated text into lines, each keeping its line feed
    ([fp.readlines()]). *)
Fixpoint splitlines_keepends (s : string) : list string :=
  match s with
  | "" => []
  | String c r =>
      if Ascii.eqb c LF then String c "" :: splitlines_keepends r
      else match splitlines_keepends r with
           | [] => [String c ""]
           | l :: ls => String c l :: ls
           end
  end.

End PyStr.
Import PyStr.


(** ** Exceptions and results *)

(** The exceptions that the modelled statements can raise. *)
Inductive Exn : Type :=
| FileNotFoundError (path : string)
| IsADirectoryError (path : string)
| ValueError (msg : string)
| DuplicateSectionError (section : string)
| NoSectionError (section : string)
| KeyError (key : string).

(** Outcome of a call: a returned value or a raised exception. *)
Inductive result (A : Type) : Type :=
| Ok (a : A)
| Raise (e : Exn).
Arguments Ok {A} a.
Arguments Raise {A} e.

Definition rbind {A B} (r : result A) (k : A -> result B) : result B :=
  match r with
  | Ok a => k a
  | Raise e => Raise e
  end.

Declare Scope result_scope.
Delimit Scope result_scope with res.
Notation "x <- m ;; k" := (rbind m (fun x => k))
  (at level 100, m at next level, right associativity) : result_scope.

(** [for x in l: acc = body(acc, x)] where the body may raise. *)
Fixpoint rfold {A S} (body : S -> A -> result S) (l : list A) (acc : S)
  : result S :=
  match l with
  | [] => Ok acc
  | x :: r => (acc' <- body acc x ;; rfold body r acc')%res
  end.

(** ** [configparser.ConfigParser]

    Insertion-ordered dictionaries are association lists in insertion
    order.  Only the default construction is modelled: [strict=True],
    delimiter "=", [default_section="DEFAULT"], [optionxform = str.lower].
    [BasicInterpolation.before_set] rejects values holding a stray "%";
    every value this program stores is a literal without "%" or the
    decimal version string, so that check is left out. *)

Module configparser.

(** [d[k] = v] on an insertion-ordered dict: an existing key keeps its
    position, a new key goes last. *)
Fixpoint dict_set (k v : string) (d : list (string * string))
  : list (string * string) :=
  match d with
  | [] => [(k, v)]
  | (k', v') :: r =>
      if String.eqb k' k then (k, v) :: r else (k', v') :: dict_set k v r
  end.

Record ConfigParser : Type := mkParser {
  defaults : list (string * string);
  sections : list (string * list (string * string))
}.

(** [configparser.ConfigParser()] *)
Definition new : ConfigParser := mkParser [] [].

Definition default_section : string := "DEFAULT".

(** [section in self._sections] *)
Definition has_section (section : string) (cp : ConfigParser) : bool :=
  existsb (fun e => String.eqb (fst e) section) (sections cp).

(** [cp.add_section(section)] *)
Definition add_section (section : string) (cp : ConfigParser)
  : result ConfigParser :=
  if String.eqb section default_section then
    Raise (ValueError ("Invalid section name: " +:+ section))
  else if has_section section cp then Raise (DuplicateSectionError section)
  else Ok (mkParser (defaults cp) (sections cp ++ [(section, [])])).

(** [self._sections[section][option] = value] on the first (only) entry
    named [section]. *)
Fixpoint sections_set (section option value : string)
    (l : list (string * list (string * string)))
  : list (string * list (string * string)) :=
  match l with
  | [] => []
  | (name, d) :: r =>
      if String.eqb name section then (name, dict_set option value d) :: r
      else (name, d) :: sections_set section option value r
  end.

(** [cp.set(section, option, value)] *)
Definition set (section option value : string) (cp : ConfigParser)
  : result ConfigParser :=
  if String.eqb section "" || String.eqb section default_section then
    Ok (mkParser (dict_set (lower option) value (defaults cp)) (sections cp))
  else if has_section section cp then
    Ok (mkParser (defaults cp)
                 (sections_set section (lower option) value (sections cp)))
  else Raise (NoSectionError section).

(** One "key = value" line of [_write_section]. *)
Definition write_item (kv : string * string) : string :=
  fst kv +:+ " = " +:+ replace LF (String LF (String TAB "")) (snd kv) +:+ nl.

(** [self._write_section(fp, name, items, " = ")] *)
Definition write_section (name : string) (items : list (string * string))
  : string :=
  "[" +:+ name +:+ "]" +:+ nl
  +:+ String.concat "" (map write_item items) +:+ nl.

(** The text that [cp.write(fp)] sends to [fp]. *)
Definition write (cp : ConfigParser) : string :=
  (match defaults cp with
   | [] => ""
   | _ :: _ => write_section default_section (defaults cp)
   end)
  +:+ String.concat ""
        (map (fun e => write_section (fst e) (snd e)) (sections cp)).

End configparser.

(** ** The hassfest context *)

(** Modelled from the spec: the hassfest [Error] record of
    [script/hassfest/model.py], which is not among the sources; an error is
    a source tag, a message and a fixable flag. *)
Record Error : Type := mkError {
  plugin : string;
  error : string;
  fixable : bool
}.

(** Modelled from the spec: the hassfest [Config] context of
    [script/hassfest/model.py], which is not among the sources; it exposes a
    root path, an error sink and a string-keyed cache. *)
Record Config : Type := mkConfig {
  root : string;
  errors : list Error;
  cache : gmap string string
}.

(** Modelled from the spec: [Config.add_error(plugin, error, fixable)] of
    [script/hassfest/model.py], which is not among the sources; it appends
    one error to the sink.  A call that leaves [fixable] out passes its
    default, [False]. *)
Definition add_error (plg msg : string) (fx : bool) (config : Config)
  : Config :=
  mkConfig (root config) (errors config ++ [mkError plg msg fx]) (cache config).

(** [any(err.plugin == "mypy_config" for err in config.errors)] *)
Definition any_mypy_error (errs : list Error) : bool :=
  existsb (fun err => String.eqb (plugin err) "mypy_config") errs.

(** ** The filesystem *)

Inductive node : Type :=
| File (content : string)
| Dir.

(** A filesystem snapshot maps a path, as text, to what is found there.
    The failures it can show are a missing entry and a directory in the
    place of a file; permissions, over-long names and undecodable bytes are
    not recorded in it. *)
Abbreviation FS := (gmap string node).

(** [os.path.sep] *)
Definition os_path_sep : string := "/".

(** [p / name] for paths held as text. *)
Definition path_join (p name : string) : string := p +:+ os_path_sep +:+ name.

(** [Path(p).is_dir()] *)
Definition is_dir (fs : FS) (p : string) : bool :=
  match fs !! p with
  | Some Dir => true
  | _ => false
  end.

(** [Path(p).is_file()] *)
Definition is_file (fs : FS) (p : string) : bool :=
  match fs !! p with
  | Some (File _) => true
  | _ => false
  end.

(** [open(p).read()]: the text of a file, newlines translated. *)
Definition read_text (fs : FS) (p : string) : result string :=
  match fs !! p with
  | Some (File content) => Ok (universal_newlines content)
  | Some Dir => Raise (IsADirectoryError p)
  | None => Raise (FileNotFoundError p)
  end.

(** [open(p).readlines()] *)
Definition readlines (fs : FS) (p : string) : result (list string) :=
  (text <- read_text fs p ;; Ok (splitlines_keepends text))%res.

(** [open(p, "w")]: the file is created or truncated.  The folder that is
    to hold [p] is taken to be there; a snapshot does not record it. *)
Definition open_w (fs : FS) (p : string) : result FS :=
  match fs !! p with
  | Some Dir => Raise (IsADirectoryError p)
  | _ => Ok (<[p := File ""]> fs)
  end.

(** [fp.write(text)] on a file just opened for writing at [p]. *)
Definition write_text (fs : FS) (p text : string) : FS :=
  <[p := File text]> fs.

(** ** Statements over the context

    The context is mutated in place by the Python code; here it is threaded
    through, and it is kept when an exception is raised. *)

Definition M (A : Type) : Type := Config -> result A * Config.

Definition ret {A} (a : A) : M A := fun c => (Ok a, c).

Definition bind {A B} (m : M A) (k : A -> M B) : M B :=
  fun c =>
    match m c with
    | (Ok a, c') => k a c'
    | (Raise e, c') => (Raise e, c')
    end.

(** A computation that does not touch the context. *)
Definition lift {A} (r : result A) : M A := fun c => (r, c).

Definition gets {A} (f : Config -> A) : M A := fun c => (Ok (f c), c).

Definition modify (f : Config -> Config) : M unit := fun c => (Ok tt, f c).

Declare Scope ctx_scope.
Delimit Scope ctx_scope with ctx.
Notation "x <- m ;; k" := (bind m (fun x => k))
  (at level 100, m at next level, right associativity) : ctx_scope.
Notation "m ;;; k" := (bind m (fun _ => k))
  (at level 100, right associativity) : ctx_scope.

(** [for x in l: body(x)] *)
Fixpoint for_each {A} (l : list A) (body : A -> M unit) : M unit :=
  match l with
  | [] => ret tt
  | x :: r => (body x ;;; for_each r body)%ctx
  end.

(** ** Module constants *)

(** Lines 18-83. *)
Definition IGNORED_MODULES : list string := [
  "homeassistant.components.blueprint.*";
  "homeassistant.components.cloud.*";
  "homeassistant.components.config.*";
  "homeassistant.components.conversation.*";
  "homeassistant.components.deconz.*";
  "homeassistant.components.demo.*";
  "homeassistant.components.denonavr.*";
  "homeassistant.components.evohome.*";
  "homeassistant.components.fireservicerota.*";
  "homeassistant.components.firmata.*";
  "homeassistant.components.freebox.*";
  "homeassistant.components.geniushub.*";
  "homeassistant.components.google_assistant.*";
  "homeassistant.components.gree.*";
  "homeassistant.components.harmony.*";
  "homeassistant.components.hassio.*";
  "homeassistant.components.here_travel_time.*";
  "homeassistant.components.home_plus_control.*";
  "homeassistant.components.homekit.*";
  "homeassistant.components.homekit_controller.*";
  "homeassistant.components.honeywell.*";
  "homeassistant.components.icloud.*";
  "homeassistant.components.influxdb.*";
  "homeassistant.components.input_datetime.*";
  "homeassistant.components.isy994.*";
  "homeassistant.components.izone.*";
  "homeassistant.components.konnected.*";
  "homeassistant.components.kostal_plenticore.*";
  "homeassistant.components.litterrobot.*";
  "homeassistant.components.lovelace.*";
  "homeassistant.components.lutron_caseta.*";
  "homeassistant.components.lyric.*";
  "homeassistant.components.melcloud.*";
  "homeassistant.components.meteo_france.*";
  "homeassistant.components.minecraft_server.*";
  "homeassistant.components.mobile_app.*";
  "homeassistant.components.nest.legacy.*";
  "homeassistant.components.netgear.*";
  "homeassistant.components.nilu.*";
  "homeassistant.components.nzbget.*";
  "homeassistant.components.omnilogic.*";
  "homeassistant.components.onvif.*";
  "homeassistant.components.ozw.*";
  "homeassistant.components.philips_js.*";
  "homeassistant.components.plex.*";
  "homeassistant.components.profiler.*";
  "homeassistant.components.ring.*";
  "homeassistant.components.solaredge.*";
  "homeassistant.components.sonos.*";
  "homeassistant.components.spotify.*";
  "homeassistant.components.system_health.*";
  "homeassistant.components.telegram_bot.*";
  "homeassistant.components.template.*";
  "homeassistant.components.toon.*";
  "homeassistant.components.unifi.*";
  "homeassistant.components.upnp.*";
  "homeassistant.components.vizio.*";
  "homeassistant.components.withings.*";
  "homeassistant.components.xbox.*";
  "homeassistant.components.xiaomi_aqara.*";
  "homeassistant.components.xiaomi_miio.*";
  "homeassistant.components.yeelight.*";
  "homeassistant.components.zha.*";
  "homeassistant.components.zwave.*"
].

(** Lines 85-90: the literal starts with a line feed that [lstrip] removes. *)
Definition HEADER : string :=
  lstrip (nl +:+ "# Automatically generated by hassfest." +:+ nl
          +:+ "#" +:+ nl
          +:+ "# To update, run python3 -m script.hassfest" +:+ nl
          +:+ nl).

(** Lines 109-122. *)
Definition STRICT_SETTINGS : list string := [
  "check_untyped_defs";
  "disallow_incomplete_defs";
  "disallow_subclassing_any";
  "disallow_untyped_calls";
  "disallow_untyped_decorators";
  "disallow_untyped_defs";
  "no_implicit_optional";
  "warn_return_any";
  "warn_unreachable"
].

(** Lines 126-128. *)
Definition STRICT_SETTINGS_CORE : list string := [
  "disallow_any_generics"
].

(** ** The program *)

Section MypyConfig.

(** [REQUIRED_PYTHON_VER] of [homeassistant/const.py] is not among the
    sources and is taken as a parameter: the tuple of interpreter version
    numbers, of which the first two form the "major.minor" string. *)
Variable REQUIRED_PYTHON_VER : list Z.

(** Lines 92-103, in insertion order. *)
Definition GENERAL_SETTINGS : list (string * string) := [
  ("python_version", join "." (map str_int (firstn 2 REQUIRED_PYTHON_VER)));
  ("show_error_codes", "true");
  ("follow_imports", "silent");
  ("ignore_missing_imports", "true");
  ("strict_equality", "true");
  ("warn_incomplete_stub", "true");
  ("warn_redundant_casts", "true");
  ("warn_unused_configs", "true");
  ("warn_unused_ignores", "true")
].

(** Lines 140-144: the list comprehension over the lines read. *)
Definition parse_modules (lines : list string) : list string :=
  map strip
    (List.filter
       (fun line => negb (String.eqb (strip line) "")
                    && negb (startswith line "#"))
       lines).

(** Lines 146-152: the loop that fills [strict_modules] and
    [strict_core_modules]. *)
Definition classify (parsed_modules : list string)
  : list string * list string :=
  fold_left
    (fun (acc : list string * list string) module =>
       if startswith module "homeassistant.components"
       then (fst acc ++ [module], snd acc)
       else (fst acc, snd acc ++ [module]))
    parsed_modules ([], []).

(** Line 154. *)
Definition ignored_modules_set : gset string := list_to_set IGNORED_MODULES.

(** Lines 156-166: the body of the loop over [strict_modules]. *)
Definition check_strict_module (module : string) : M unit :=
  ((if negb (startswith module "homeassistant.components.")
       && negb (String.eqb module "homeassistant.components")
    then modify (add_error "mypy_config"
                   ("Only components should be added: " +:+ module) false)
    else ret tt) ;;;
   (if bool_decide (module ∈ ignored_modules_set)
    then modify (add_error "mypy_config"
                   ("Module '" +:+ module
                    +:+ "' is in ignored list in mypy_config.py") false)
    else ret tt))%ctx.

(** Lines 171-182: the body of the loop over [all_modules]. *)
Definition check_module_exists (fs : FS) (module : string) : M unit :=
  if endswith module ".*" then
    let module_path :=
      replace "." os_path_sep (slice_to_neg 2 module) in
    if negb (is_dir fs module_path)
    then modify (add_error "mypy_config"
                   ("Module '" +:+ module +:+ " is not a folder") false)
    else ret tt
  else
    let module := replace "." os_path_sep module in
    let module_path := module +:+ ".py" in
    if is_file fs module_path then ret tt
    else
      let module_path := path_join module "__init__.py" in
      if negb (is_file fs module_path)
      then modify (add_error "mypy_config"
                     ("Module '" +:+ module +:+ " doesn't exist") false)
      else ret tt.

(** Lines 188-229: building the parser, writing it out and trimming. *)
Definition render_config (strict_modules strict_core_modules : list string)
  : result string :=
  (let mypy_config := configparser.new in
   let general_section := "mypy" in
   mypy_config <- configparser.add_section general_section mypy_config ;;
   mypy_config <-
     rfold (fun cp kv => configparser.set general_section (fst kv) (snd kv) cp)
           GENERAL_SETTINGS mypy_config ;;
   mypy_config <-
     rfold (fun cp key => configparser.set general_section key "true" cp)
           STRICT_SETTINGS mypy_config ;;
   mypy_config <-
     rfold (fun cp core_module =>
              let core_section := "mypy-" +:+ core_module in
              cp <- configparser.add_section core_section cp ;;
              rfold (fun cp key => configparser.set core_section key "true" cp)
                    STRICT_SETTINGS_CORE cp)
           strict_core_modules mypy_config ;;
   let components_section := "mypy-homeassistant.components.*" in
   mypy_config <- configparser.add_section components_section mypy_config ;;
   mypy_config <-
     rfold (fun cp key => configparser.set components_section key "false" cp)
           STRICT_SETTINGS mypy_config ;;
   mypy_config <-
     rfold (fun cp strict_module =>
              let strict_section := "mypy-" +:+ strict_module in
              cp <- configparser.add_section strict_section cp ;;
              rfold (fun cp key => configparser.set strict_section key "true" cp)
                    STRICT_SETTINGS cp)
           strict_modules mypy_config ;;
   let tests_section := "mypy-tests.*" in
   mypy_config <- configparser.add_section tests_section mypy_config ;;
   mypy_config <-
     rfold (fun cp key => configparser.set tests_section key "false" cp)
           STRICT_SETTINGS mypy_config ;;
   mypy_config <-
     rfold (fun cp ignored_module =>
              let ignored_section := "mypy-" +:+ ignored_module in
              cp <- configparser.add_section ignored_section cp ;;
              configparser.set ignored_section "ignore_errors" "true" cp)
           IGNORED_MODULES mypy_config ;;
   Ok (HEADER +:+ strip (configparser.write mypy_config)))%res.

(** Lines 131-229. *)
Definition generate_and_validate (fs : FS) : M string :=
  (config_root <- gets root ;;
   let config_path := path_join config_root ".strict-typing" in
   lines <- lift (readlines fs config_path) ;;
   let parsed_modules := parse_modules lines in
   let strict_modules := fst (classify parsed_modules) in
   let strict_core_modules := snd (classify parsed_modules) in
   for_each strict_modules check_strict_module ;;;
   let all_modules :=
     strict_modules ++ strict_core_modules ++ IGNORED_MODULES in
   for_each all_modules (check_module_exists fs) ;;;
   errs <- gets errors ;;
   if any_mypy_error errs then ret ""
   else lift (render_config strict_modules strict_core_modules))%ctx.

(** Lines 232-246.  The [integrations] argument is not used. *)
Definition validate (fs : FS) : M unit :=
  (config_root <- gets root ;;
   let config_path := path_join config_root "mypy.ini" in
   content <- generate_and_validate fs ;;
   modify (fun c =>
             mkConfig (root c) (errors c)
                      (<["mypy_config" := content]> (cache c))) ;;;
   errs <- gets errors ;;
   if any_mypy_error errs then ret tt
   else
     text <- lift (read_text fs config_path) ;;
     if negb (String.eqb (strip text) content)
     then modify (add_error "mypy_config"
                    "File mypy.ini is not up to date. Run python3 -m script.hassfest"
                    true)
     else ret tt)%ctx.

(** Lines 249-253.  The [integrations] argument is not used.  The file is
    opened, hence truncated, before the cache is read. *)
Definition generate (config : Config) (fs : FS) : result unit * FS :=
  let config_path := path_join (root config) "mypy.ini" in
  match open_w fs config_path with
  | Raise e => (Raise e, fs)
  | Ok fs' =>
      match cache config !! "mypy_config" with
      | None => (Raise (KeyError "mypy_config"), fs')
      | Some content => (Ok tt, write_text fs' config_path (content +:+ nl))
      end
  end.

End MypyConfig.

(** ** Descriptions used in the statements

    The definitions below do not come from the source: they phrase, in the
    words of the specification, what the loops and the rendering are meant
    to produce, and the theorems compare the program with them. *)

(** The context with [es] added at the end of the error sink. *)
Definition append_errors (es : list Error) (c : Config) : Config :=
  mkConfig (root c) (errors c ++ es) (cache c).

(** MisplacedModule: "only components should be added". *)
Definition misplaced_error (m : string) : Error :=
  mkError "mypy_config" ("Only components should be added: " +:+ m) false.

(** ContradictoryClassification: "module is in ignored list". *)
Definition contradictory_error (m : string) : Error :=
  mkError "mypy_config"
          ("Module '" +:+ m +:+ "' is in ignored list in mypy_config.py") false.

(** StaleGeneratedFile: "not up to date", fixable. *)
Definition stale_error : Error :=
  mkError "mypy_config"
          "File mypy.ini is not up to date. Run python3 -m script.hassfest" true.

(** An entry is misplaced when it neither starts with the component prefix
    followed by a dot nor is the bare component root. *)
Definition is_misplaced (m : string) : bool :=
  negb (startswith m "homeassistant.components.")
  && negb (String.eqb m "homeassistant.components").

(** Dots converted to path separators. *)
Definition module_path (m : string) : string := replace "." "/" m.

(** The filesystem requirement on one entry of [all_modules]. *)
Definition module_exists (fs : FS) (m : string) : bool :=
  if endswith m ".*" then is_dir fs (module_path (slice_to_neg 2 m))
  else is_file fs (module_path m +:+ ".py")
       || is_file fs (module_path m +:+ "/__init__.py").

(** MissingFilesystemEntry for one entry: "is not a folder" for a wildcard
    entry, "doesn't exist" otherwise. *)
Definition missing_error (m : string) : Error :=
  if endswith m ".*"
  then mkError "mypy_config" ("Module '" +:+ m +:+ " is not a folder") false
  else mkError "mypy_config"
               ("Module '" +:+ module_path m +:+ " doesn't exist") false.

(** Errors of the strict-list check for one entry. *)
Definition strict_list_errors (m : string) : list Error :=
  (if is_misplaced m then [misplaced_error m] else [])
  ++ (if bool_decide (m ∈ IGNORED_MODULES) then [contradictory_error m] else []).

(** Errors of the existence check over a list of entries: one per entry
    that fails the requirement, in order. *)
Definition existence_errors (fs : FS) (ms : list string) : list Error :=
  map missing_error (List.filter (fun m => negb (module_exists fs m)) ms).

(** The two partitions of the declaration list. *)
Definition component_strict (parsed : list string) : list string :=
  List.filter (fun m => startswith m "homeassistant.components") parsed.

Definition core_strict (parsed : list string) : list string :=
  List.filter (fun m => negb (startswith m "homeassistant.components")) parsed.

(** Everything the validation passes report for a declaration list. *)
Definition validation_errors (fs : FS) (parsed : list string) : list Error :=
  flat_map strict_list_errors (component_strict parsed)
  ++ existence_errors fs
       (component_strict parsed ++ core_strict parsed ++ IGNORED_MODULES).

Definition strict_path (c : Config) : string :=
  path_join (root c) ".strict-typing".

Definition mypy_ini_path (c : Config) : string :=
  path_join (root c) "mypy.ini".

(** Every strict option with one value. *)
Definition strict_options (value : string) : list (string * string) :=
  map (fun key => (key, value)) STRICT_SETTINGS.

(** The settings document in its required order: the general section, one
    section per strict core module, the wildcard components section, one
    section per strict component, the tests section, one section per ignored
    module. *)
Definition settings_document (ver : list Z) (strict core : list string)
  : list (string * list (string * string)) :=
  ("mypy", GENERAL_SETTINGS ver ++ strict_options "true")
  :: map (fun m => ("mypy-" +:+ m,
                    map (fun key => (key, "true")) STRICT_SETTINGS_CORE)) core
  ++ ("mypy-homeassistant.components.*", strict_options "false")
  :: map (fun m => ("mypy-" +:+ m, strict_options "true")) strict
  ++ ("mypy-tests.*", strict_options "false")
  :: map (fun m => ("mypy-" +:+ m, [("ignore_errors", "true")])) IGNORED_MODULES.

(** The names of the sections of the settings document, in order. *)
Definition section_names (strict core : list string) : list string :=
  "mypy"
  :: map (fun m => "mypy-" +:+ m) core
  ++ "mypy-homeassistant.components.*"
  :: map (fun m => "mypy-" +:+ m) strict
  ++ "mypy-tests.*"
  :: map (fun m => "mypy-" +:+ m) IGNORED_MODULES.

(** The INI text of a document: its sections one after the other. *)
Definition document_text (doc : list (string * list (string * string)))
  : string :=
  String.concat ""
    (map (fun e => configparser.write_section (fst e) (snd e)) doc).

(** Adding one section and then setting its options, the pattern that
    [generate_and_validate] repeats for every section. *)
Definition add_full_section (cp : configparser.ConfigParser)
    (e : string * list (string * string)) : result configparser.ConfigParser :=
  (cp' <- configparser.add_section (fst e) cp ;;
   rfold (fun cp kv => configparser.set (fst e) (fst kv) (snd kv) cp)
         (snd e) cp')%res.

(** The dictionary that setting [items] one by one builds on top of [d]. *)
Definition dict_of (items d : list (string * string)) : list (string * string) :=
  fold_left (fun d kv => configparser.dict_set (lower (fst kv)) (snd kv) d)
            items d.

(** A section as the parser stores it. *)
Definition stored_section (e : string * list (string * string))
  : string * list (string * string) :=
  (fst e, dict_of (snd e) []).

(** Section names that [set] does not route to the defaults. *)
Definition usable_name (n : string) : Prop :=
  String.eqb n "" || String.eqb n configparser.default_section = false.

(** The errors that one call of [generate_and_validate] adds to the sink. *)
Definition reported (ver : list Z) (fs : FS) (c : Config) : list Error :=
  drop (length (errors c)) (errors (snd (generate_and_validate ver fs c))).

#[global] Instance Error_eq_dec : EqDecision Error.
Proof. solve_decision. Defined.

(** ** Sample inputs *)

Definition sample_ver : list Z := [3; 8; 0]%Z.

(** The directories of all ignored modules. *)
Definition ignored_dirs : list (string * node) :=
  map (fun m => (module_path (slice_to_neg 2 m), Dir)) IGNORED_MODULES.

(** A tree rooted at "/repo" whose declaration file holds [decl], with the
    ignored modules' directories and the [extra] entries in place. *)
Definition sample_fs (decl : string) (extra : list (string * node)) : FS :=
  list_to_map ([("/repo/.strict-typing", File decl)] ++ extra ++ ignored_dirs).

Definition sample_config : Config := mkConfig "/repo" [] ∅.

(** A context of the same root that already carries another plugin's error
    and an unrelated cache entry. *)
Definition busy_config : Config :=
  mkConfig "/repo" [mkError "codeowners" "CODEOWNERS is stale" true]
           (<["requirements" := "ok"]> ∅).

(** The lines of a declaration text, as [readlines] yields them. *)
Definition lines_of (decl : string) : list string :=
  splitlines_keepends (universal_newlines decl).

(** One strict component and one strict core module, both on disk. *)
Definition decl_valid : string :=
  "# strict modules" +:+ nl
  +:+ "homeassistant.components.foo" +:+ nl
  +:+ "homeassistant.core" +:+ nl.

Definition fs_valid : FS :=
  sample_fs decl_valid
    [("homeassistant/components/foo.py", File "");
     ("homeassistant/core.py", File "")].

(** The component "demo" declared without the wildcard suffix, its package
    being on disk. *)
Definition decl_demo : string := "homeassistant.components.demo" +:+ nl.

Definition fs_demo : FS :=
  sample_fs decl_demo
    [("homeassistant/components/demo/__init__.py", File "")].

(** The ignored entry for "demo" declared literally. *)
Definition decl_demo_wildcard : string :=
  "homeassistant.components.demo.*" +:+ nl.

Definition fs_demo_wildcard : FS := sample_fs decl_demo_wildcard [].

(** An entry next to, but not inside, the component namespace. *)
Definition decl_misplaced : string := "homeassistant.components_extra" +:+ nl.

Definition fs_misplaced : FS :=
  sample_fs decl_misplaced [("homeassistant/components_extra.py", File "")].

(** A present component, a wildcard without its folder and a core module
    without its file. *)
Definition decl_missing : string :=
  "homeassistant.components.foo" +:+ nl
  +:+ "homeassistant.missing" +:+ nl
  +:+ "homeassistant.components.bar.*" +:+ nl.

Definition fs_missing : FS :=
  sample_fs decl_missing [("homeassistant/components/foo.py", File "")].

(** The same component declared twice. *)
Definition decl_duplicate : string :=
  "homeassistant.components.foo" +:+ nl
  +:+ "homeassistant.components.foo" +:+ nl.

Definition fs_duplicate : FS :=
  sample_fs decl_duplicate [("homeassistant/components/foo.py", File "")].

(** The whole component namespace declared strict. *)
Definition decl_all_components : string := "homeassistant.components.*" +:+ nl.

Definition fs_all_components : FS :=
  sample_fs decl_all_components [("homeassistant/components", Dir)].

(** Only a comment and a blank line. *)
Definition decl_empty : string := "# nothing strict yet" +:+ nl +:+ nl.

Definition fs_empty : FS := sample_fs decl_empty [].

(** A comment that was indented by two spaces. *)
Definition decl_indented : string := "  # note" +:+ nl.

Definition fs_indented : FS := sample_fs decl_indented [].

(** The text rendered for [fs_valid], and the context that [validate] leaves
    there: mypy.ini does not exist yet, so the call raises after it has
    filled the cache. *)
Definition text_valid : string :=
  match fst (generate_and_validate sample_ver fs_valid sample_config) with
  | Ok text => text
  | Raise _ => ""
  end.

Definition cached_config : Config :=
  snd (validate sample_ver fs_valid sample_config).

(** Every character of [s] satisfies [P]. *)
Fixpoint all_chars (P : ascii -> bool) (s : string) : bool :=
  match s with
  | "" => true
  | String c r => P c && all_chars P r
  end.

(** A character other than the carriage return. *)
Definition not_cr (c : ascii) : bool := negb (Ascii.eqb c CR).

(** The last character of a string. *)
Fixpoint last_char (s : string) : option ascii :=
  match s with
  | "" => None
  | String c "" => Some c
  | String _ r => last_char r
  end.

(** A section whose name, keys and values hold no carriage return. *)
Definition no_cr_section (e : string * list (string * string)) : Prop :=
  all_chars not_cr (fst e) = true
  /\ Forall (fun kv => all_chars not_cr (fst kv) = true
                       /\ all_chars not_cr (snd kv) = true) (snd e).

(** Two trees on which [generate_and_validate] cannot tell a difference:
    the declaration file, the directories, and the files whose path ends in
    "y" (as "....py" does) are the same. *)
Definition same_for_validation (c : Config) (fs fs' : FS) : Prop :=
  fs' !! strict_path c = fs !! strict_path c
  /\ (forall p, is_dir fs' p = is_dir fs p)
  /\ (forall p, last_char p = Some "y"%char -> is_file fs' p = is_file fs p).

(** A character that ends no line. *)
Definition not_newline (c : ascii) : bool :=
  negb (Ascii.eqb c LF) && negb (Ascii.eqb c CR).

(** Windows line endings: every line feed preceded by a carriage return. *)
Definition crlf (s : string) : string := replace LF (String CR nl) s.

(** ** Further sample inputs *)

(** [fs_valid] with an outdated mypy.ini in place. *)
Definition fs_stale : FS :=
  <["/repo/mypy.ini" := File ("[mypy]" +:+ nl)]> fs_valid.

(** [fs_valid] with the current mypy.ini checked out with Windows line
    endings, a leading blank line and trailing blank lines. *)
Definition fs_padded : FS :=
  <["/repo/mypy.ini" :=
      File (crlf (nl +:+ text_valid +:+ nl +:+ nl +:+ nl))]> fs_valid.

(** [fs_valid] after the folder of the ignored module "zwave" was removed. *)
Definition fs_no_zwave : FS := delete "homeassistant/components/zwave" fs_valid.

(** A tree without anything in it. *)
Definition fs_nothing : FS := ∅.

(** ** Basic facts about strings *)

Section StringFacts.

Lemma append_cons (c : ascii) (s t : string) :
  String c s +:+ t = String c (s +:+ t).
Proof. reflexivity. Qed.

Lemma append_nil_l (s : string) : "" +:+ s = s.
Proof. reflexivity. Qed.

Lemma append_nil_r (s : string) : s +:+ "" = s.
Proof.
  induction s as [|c s IH]; [reflexivity|].
  now rewrite append_cons, IH.
Qed.

Lemma append_assoc (a b c : string) : (a +:+ b) +:+ c = a +:+ (b +:+ c).
Proof.
  induction a as [|x a IH]; [reflexivity|].
  now rewrite !append_cons, IH.
Qed.

Lemma length_append (a b : string) :
  String.length (a +:+ b) = String.length a + String.length b.
Proof.
  induction a as [|x a IH]; [reflexivity|].
  rewrite append_cons. simpl. now rewrite IH.
Qed.

Lemma append_inv_tail (a b t : string) : a +:+ t = b +:+ t -> a = b.
Proof.
  revert b. induction a as [|x a IH]; intros [|y b] H.
  - reflexivity.
  - apply (f_equal String.length) in H.
    rewrite append_nil_l, append_cons in H. simpl in H.
    rewrite length_append in H. lia.
  - apply (f_equal String.length) in H.
    rewrite append_nil_l, append_cons in H. simpl in H.
    rewrite length_append in H. lia.
  - rewrite !append_cons in H. injection H as -> H. f_equal. now apply IH.
Qed.

Lemma last_char_append (a : string) (c : ascii) (t : string) :
  last_char (a +:+ String c t) = last_char (String c t).
Proof.
  induction a as [|x a IH]; [reflexivity|].
  rewrite append_cons.
  destruct a as [|y a]; [exact IH|].
  rewrite append_cons in *. exact IH.
Qed.

End StringFacts.

(** ** The validation passes *)

Section Validation.

Variable ver : list Z.

Lemma append_errors_nil (c : Config) : append_errors [] c = c.
Proof. destruct c. unfold append_errors. simpl. now rewrite app_nil_r. Qed.

Lemma append_errors_app (a b : list Error) (c : Config) :
  append_errors b (append_errors a c) = append_errors (a ++ b) c.
Proof. unfold append_errors. simpl. now rewrite app_assoc. Qed.

Lemma add_error_appends (plg msg : string) (fx : bool) (c : Config) :
  add_error plg msg fx c = append_errors [mkError plg msg fx] c.
Proof. reflexivity. Qed.

(** A loop whose body only reports errors reports the errors of every
    element, in order, and never raises. *)
Lemma for_each_appends {A} (body : A -> M unit) (f : A -> list Error) :
  (forall x c, body x c = (Ok tt, append_errors (f x) c)) ->
  forall l c, for_each l body c = (Ok tt, append_errors (flat_map f l) c).
Proof.
  intros Hbody l. induction l as [|x l IH]; intros c; simpl.
  - unfold ret. now rewrite append_errors_nil.
  - unfold bind. rewrite Hbody, IH. now rewrite append_errors_app.
Qed.

Lemma flat_map_optional {A B} (p : A -> bool) (f : A -> B) (l : list A) :
  flat_map (fun x => if p x then [] else [f x]) l
  = map f (List.filter (fun x => negb (p x)) l).
Proof.
  induction l as [|x l IH]; simpl; [reflexivity|].
  destruct (p x); simpl; now rewrite IH.
Qed.

Lemma check_strict_module_appends (m : string) (c : Config) :
  check_strict_module m c = (Ok tt, append_errors (strict_list_errors m) c).
Proof.
  unfold check_strict_module, strict_list_errors, is_misplaced, bind,
    modify, ret, ignored_modules_set.
  rewrite (bool_decide_ext (m ∈ (list_to_set IGNORED_MODULES : gset string))
                           (m ∈ IGNORED_MODULES))
    by apply elem_of_list_to_set.
  destruct (negb (startswith m "homeassistant.components.")
            && negb (String.eqb m "homeassistant.components"));
    destruct (bool_decide (m ∈ IGNORED_MODULES)); simpl;
    rewrite ?add_error_appends, ?append_errors_app, ?append_errors_nil;
    reflexivity.
Qed.

Lemma check_module_exists_appends (fs : FS) (m : string) (c : Config) :
  check_module_exists fs m c
  = (Ok tt,
     append_errors (if module_exists fs m then [] else [missing_error m]) c).
Proof.
  unfold check_module_exists, module_exists, missing_error, module_path,
    path_join, os_path_sep, modify, ret.
  destruct (endswith m ".*").
  - destruct (is_dir fs _); simpl;
      now rewrite ?add_error_appends, ?append_errors_nil.
  - destruct (is_file fs (replace "." "/" m +:+ ".py")); simpl;
      [now rewrite append_errors_nil|].
    destruct (is_file fs _); simpl;
      now rewrite ?add_error_appends, ?append_errors_nil.
Qed.

Lemma classify_fold (l a b : list string) :
  fold_left
    (fun (acc : list string * list string) module =>
       if startswith module "homeassistant.components"
       then (fst acc ++ [module], snd acc)
       else (fst acc, snd acc ++ [module]))
    l (a, b)
  = (a ++ component_strict l, b ++ core_strict l).
Proof.
  revert a b. induction l as [|m l IH]; intros a b; simpl.
  - now rewrite !app_nil_r.
  - destruct (startswith m "homeassistant.components"); simpl;
      rewrite IH; simpl; now rewrite <- ?app_assoc.
Qed.

Lemma classify_partition (parsed : list string) :
  classify parsed = (component_strict parsed, core_strict parsed).
Proof. unfold classify. now rewrite classify_fold. Qed.

(** The whole of [generate_and_validate]: it raises only when the
    declaration file cannot be read or the rendering raises; otherwise the
    context gains the validation errors, and the rendering runs only when
    no error of this plugin is present. *)
Lemma generate_and_validate_unfold (fs : FS) (c : Config) :
  generate_and_validate ver fs c =
  match readlines fs (strict_path c) with
  | Raise e => (Raise e, c)
  | Ok lines =>
      let parsed := parse_modules lines in
      let c1 := append_errors (validation_errors fs parsed) c in
      (if any_mypy_error (errors c1) then Ok ""
       else render_config ver (component_strict parsed) (core_strict parsed),
       c1)
  end.
Proof.
  unfold generate_and_validate, bind, gets, lift, strict_path.
  destruct (readlines fs _) as [lines|e]; [|reflexivity].
  rewrite classify_partition. simpl fst. simpl snd.
  rewrite (for_each_appends _ _ check_strict_module_appends).
  rewrite (for_each_appends _ _ (check_module_exists_appends fs)).
  rewrite flat_map_optional, append_errors_app.
  fold (existence_errors fs (component_strict (parse_modules lines)
           ++ core_strict (parse_modules lines) ++ IGNORED_MODULES)).
  fold (validation_errors fs (parse_modules lines)).
  cbv zeta.
  destruct (any_mypy_error _); reflexivity.
Qed.

Lemma any_mypy_error_In (e : Error) (errs : list Error) :
  In e errs -> plugin e = "mypy_config" -> any_mypy_error errs = true.
Proof.
  intros Hin Hp. unfold any_mypy_error. apply existsb_exists.
  exists e. split; [exact Hin|]. now rewrite Hp.
Qed.

Lemma validation_errors_tagged (fs : FS) (parsed : list string) (e : Error) :
  In e (validation_errors fs parsed) -> plugin e = "mypy_config".
Proof.
  unfold validation_errors. intros Hin.
  apply in_app_or in Hin as [Hin|Hin].
  - apply in_flat_map in Hin as (m & _ & Hin).
    unfold strict_list_errors in Hin.
    apply in_app_or in Hin as [Hin|Hin].
    + destruct (is_misplaced m); [|contradiction].
      destruct Hin as [<-|[]]. reflexivity.
    + destruct (bool_decide _); [|contradiction].
      destruct Hin as [<-|[]]. reflexivity.
  - unfold existence_errors in Hin. apply in_map_iff in Hin.
    destruct Hin as (m & <- & _). unfold missing_error.
    now destruct (endswith m ".*").
Qed.

Lemma any_mypy_error_app (a b : list Error) :
  any_mypy_error (a ++ b) = any_mypy_error a || any_mypy_error b.
Proof. unfold any_mypy_error. apply existsb_app. Qed.

(** Validation left no error of this plugin exactly when none was there
    before and the passes reported nothing. *)
Lemma validation_clean (fs : FS) (parsed : list string) (errs : list Error) :
  any_mypy_error (errs ++ validation_errors fs parsed) = false ->
  any_mypy_error errs = false /\ validation_errors fs parsed = [].
Proof.
  rewrite any_mypy_error_app. intros H. apply orb_false_elim in H as [Ha Hb].
  split; [exact Ha|].
  destruct (validation_errors fs parsed) as [|e l] eqn:Hv; [reflexivity|].
  assert (He : plugin e = "mypy_config").
  { apply (validation_errors_tagged fs parsed). rewrite Hv. now left. }
  rewrite (any_mypy_error_In e) in Hb; [discriminate|now left|exact He].
Qed.

End Validation.

(** ** Claims about the validation passes *)

Section ValidationClaims.

Variable ver : list Z.

Lemma reported_validation_errors (fs : FS) (c : Config) (lines : list string) :
  readlines fs (strict_path c) = Ok lines ->
  reported ver fs c = validation_errors fs (parse_modules lines).
Proof.
  intros Hread. unfold reported.
  rewrite generate_and_validate_unfold, Hread. simpl.
  now rewrite drop_app_length.
Qed.

Lemma misplaced_error_inj (m m' : string) :
  misplaced_error m = misplaced_error m' -> m = m'.
Proof.
  unfold misplaced_error. intros H. injection H as H.
  revert H. apply String.app_inj.
Qed.

Lemma misplaced_not_contradictory (m m' : string) :
  misplaced_error m <> contradictory_error m'.
Proof. unfold misplaced_error, contradictory_error. intros H. discriminate H. Qed.

Lemma misplaced_not_missing (m m' : string) :
  misplaced_error m <> missing_error m'.
Proof.
  unfold misplaced_error, missing_error.
  destruct (endswith m' ".*"); intros H; discriminate H.
Qed.

Lemma contradictory_error_inj (m m' : string) :
  contradictory_error m = contradictory_error m' -> m = m'.
Proof.
  unfold contradictory_error. intros H. injection H as H.
  apply String.app_inj in H. now apply append_inv_tail in H.
Qed.

Lemma missing_not_contradictory (m m' : string) :
  missing_error m <> contradictory_error m'.
Proof.
  unfold missing_error, contradictory_error.
  destruct (endswith m ".*"); intros H; injection H as H;
    apply String.app_inj in H; apply (f_equal last_char) in H;
    rewrite !last_char_append in H; discriminate H.
Qed.

Lemma count_occ_filter (p : string -> bool) (l : list string) (x : string) :
  count_occ String.eq_dec (List.filter p l) x
  = if p x then count_occ String.eq_dec l x else 0.
Proof.
  induction l as [|y l IH]; simpl; [now destruct (p x)|].
  destruct (String.eq_dec y x) as [->|Hne].
  - destruct (p x) eqn:Hp; simpl; [|exact IH].
    destruct (String.eq_dec x x); [|congruence]. now rewrite IH.
  - destruct (p y); simpl; [|exact IH].
    destruct (String.eq_dec y x); [congruence|exact IH].
Qed.

Lemma count_occ_existence_errors (fs : FS) (ms : list string) (e : Error) :
  (forall m, missing_error m <> e) ->
  count_occ Error_eq_dec (existence_errors fs ms) e = 0.
Proof.
  intros Hne. apply count_occ_not_In. unfold existence_errors.
  rewrite in_map_iff. intros (m & Hm & _). now apply (Hne m).
Qed.

Lemma count_occ_optional_eq (b : bool) (e : Error) :
  count_occ Error_eq_dec (if b then [e] else []) e = if b then 1 else 0.
Proof. destruct b; [|reflexivity]. now rewrite count_occ_cons_eq. Qed.

Lemma count_occ_optional_neq (b : bool) (e e' : Error) :
  e <> e' -> count_occ Error_eq_dec (if b then [e] else []) e' = 0.
Proof.
  intros Hne. destruct b; [|reflexivity].
  now rewrite count_occ_cons_neq.
Qed.

Lemma count_occ_strict_misplaced (l : list string) (m : string) :
  count_occ Error_eq_dec (flat_map strict_list_errors l) (misplaced_error m)
  = if is_misplaced m then count_occ String.eq_dec l m else 0.
Proof.
  induction l as [|x l IH]; [now destruct (is_misplaced m)|].
  cbn [flat_map]. rewrite count_occ_app, IH. clear IH.
  unfold strict_list_errors. rewrite count_occ_app.
  rewrite (count_occ_optional_neq _ (contradictory_error x))
    by (intros H; symmetry in H; now apply misplaced_not_contradictory in H).
  destruct (String.eq_dec x m) as [->|Hne].
  - rewrite count_occ_optional_eq, count_occ_cons_eq by reflexivity.
    now destruct (is_misplaced m).
  - rewrite count_occ_optional_neq
      by (intros H; now apply misplaced_error_inj in H).
    rewrite count_occ_cons_neq by exact Hne. reflexivity.
Qed.

Lemma count_occ_strict_contradictory (l : list string) (m : string) :
  count_occ Error_eq_dec (flat_map strict_list_errors l)
            (contradictory_error m)
  = if bool_decide (m ∈ IGNORED_MODULES)
    then count_occ String.eq_dec l m else 0.
Proof.
  induction l as [|x l IH]; [now destruct (bool_decide _)|].
  cbn [flat_map]. rewrite count_occ_app, IH. clear IH.
  unfold strict_list_errors. rewrite count_occ_app.
  rewrite (count_occ_optional_neq _ (misplaced_error x))
    by apply misplaced_not_contradictory.
  destruct (String.eq_dec x m) as [->|Hne].
  - rewrite count_occ_optional_eq, count_occ_cons_eq by reflexivity.
    now destruct (bool_decide (m ∈ IGNORED_MODULES)).
  - rewrite count_occ_optional_neq
      by (intros H; now apply contradictory_error_inj in H).
    rewrite count_occ_cons_neq by exact Hne. reflexivity.
Qed.

Lemma ignored_are_components (m : string) :
  In m IGNORED_MODULES -> startswith m "homeassistant.components" = true.
Proof.
  assert (H : forallb (fun m => startswith m "homeassistant.components")
                      IGNORED_MODULES = true) by (vm_compute; reflexivity).
  rewrite forallb_forall in H. apply H.
Qed.

(** C5: among the errors that one call reports, the number of "Only
    components should be added" errors for an entry [m] is the number of
    times [m] stands in the component partition when [m] neither starts
    with "homeassistant.components." nor equals "homeassistant.components",
    and zero otherwise: one such error per misplaced entry, none for any
    other entry. *)
Theorem misplaced_error_per_entry (fs : FS) (c : Config)
    (lines : list string) (m : string) :
  readlines fs (strict_path c) = Ok lines ->
  In m (component_strict (parse_modules lines)) ->
  count_occ Error_eq_dec (reported ver fs c) (misplaced_error m)
  = if negb (startswith m "homeassistant.components.")
       && negb (String.eqb m "homeassistant.components")
    then count_occ String.eq_dec (component_strict (parse_modules lines)) m
    else 0.
Proof.
  intros Hread _. rewrite (reported_validation_errors _ _ _ Hread).
  unfold validation_errors. rewrite count_occ_app.
  rewrite count_occ_strict_misplaced.
  rewrite count_occ_existence_errors.
  - unfold is_misplaced. lia.
  - intros x H. symmetry in H. now apply misplaced_not_missing in H.
Qed.

(** C6: the loop over strict components, strict core modules and ignored
    modules never raises and adds to the sink exactly the errors of the
    entries that fail the filesystem requirement, one each and in order;
    the same holds of the errors one call reports after those of the
    strict-list check. *)
Theorem existence_check_one_error_per_failing_entry (fs : FS) (c : Config)
    (lines : list string) :
  readlines fs (strict_path c) = Ok lines ->
  let strict := component_strict (parse_modules lines) in
  let core := core_strict (parse_modules lines) in
  let all_modules := strict ++ core ++ IGNORED_MODULES in
  for_each all_modules (check_module_exists fs) c
  = (Ok tt,
     append_errors
       (map missing_error
            (List.filter (fun m => negb (module_exists fs m)) all_modules)) c)
  /\ reported ver fs c
     = flat_map strict_list_errors strict
       ++ map missing_error
            (List.filter (fun m => negb (module_exists fs m)) all_modules).
Proof.
  intros Hread strict core all_modules. split.
  - rewrite (for_each_appends _ _ (check_module_exists_appends fs)).
    now rewrite flat_map_optional.
  - now rewrite (reported_validation_errors _ _ _ Hread).
Qed.

(** C1, as amended: when the declaration list holds an entry [m] that is
    literally an element of the ignored list, the call reports the "is in
    ignored list" error for [m] once per occurrence of [m] in the list
    (exactly once when it is declared once) and returns the empty
    string. *)
Theorem ignored_entry_contradiction (fs : FS) (c : Config)
    (lines : list string) (m : string) :
  readlines fs (strict_path c) = Ok lines ->
  In m IGNORED_MODULES ->
  In m (parse_modules lines) ->
  count_occ Error_eq_dec (reported ver fs c) (contradictory_error m)
  = count_occ String.eq_dec (parse_modules lines) m
  /\ fst (generate_and_validate ver fs c) = Ok "".
Proof.
  intros Hread Hign Hin. split.
  - rewrite (reported_validation_errors _ _ _ Hread).
    unfold validation_errors. rewrite count_occ_app.
    rewrite count_occ_strict_contradictory.
    rewrite count_occ_existence_errors
      by (intros x; apply missing_not_contradictory).
    rewrite bool_decide_eq_true_2 by now apply list_elem_of_In.
    unfold component_strict. rewrite count_occ_filter.
    rewrite (ignored_are_components _ Hign). lia.
  - rewrite generate_and_validate_unfold, Hread. simpl.
    rewrite (any_mypy_error_In (contradictory_error m)); [reflexivity| |reflexivity].
    apply in_or_app. right. unfold validation_errors.
    apply in_or_app. left. apply in_flat_map.
    exists m. split.
    + unfold component_strict. apply filter_In. split; [exact Hin|].
      now apply ignored_are_components.
    + unfold strict_list_errors. apply in_or_app. right.
      rewrite bool_decide_eq_true_2 by now apply list_elem_of_In.
      now left.
Qed.

End ValidationClaims.

(** ** Claims about the context *)

Section ContextClaims.

Variable ver : list Z.

(** The context that [validate] leaves when the generation returned
    [content] in context [c1]. *)
Lemma validate_unfold (fs : FS) (c : Config) :
  validate ver fs c =
  match generate_and_validate ver fs c with
  | (Raise e, c1) => (Raise e, c1)
  | (Ok content, c1) =>
      let c2 := mkConfig (root c1) (errors c1)
                         (<["mypy_config" := content]> (cache c1)) in
      if any_mypy_error (errors c1) then (Ok tt, c2)
      else match read_text fs (mypy_ini_path c) with
           | Raise e => (Raise e, c2)
           | Ok text =>
               if negb (String.eqb (strip text) content)
               then (Ok tt, append_errors [stale_error] c2)
               else (Ok tt, c2)
           end
  end.
Proof.
  unfold validate, bind, gets, lift, modify, ret, mypy_ini_path.
  destruct (generate_and_validate ver fs c) as [[content|e] c1];
    [|reflexivity].
  simpl. destruct (any_mypy_error (errors c1)); [reflexivity|].
  destruct (read_text fs _) as [text|e]; [|reflexivity].
  destruct (negb _); reflexivity.
Qed.

Lemma generate_and_validate_frame (fs : FS) (c : Config) :
  exists new, snd (generate_and_validate ver fs c) = append_errors new c.
Proof.
  rewrite generate_and_validate_unfold.
  destruct (readlines fs (strict_path c)) as [lines|e].
  - eexists. reflexivity.
  - exists []. simpl. now rewrite append_errors_nil.
Qed.

(** C9: [generate_and_validate] leaves the root and the whole cache as
    they were and only extends the error sink at its end; [validate] leaves
    the root and every cache key other than "mypy_config" as they were and
    only extends the error sink at its end.  This holds on every path,
    also when an exception is raised. *)
Theorem context_only_appended (fs : FS) (c : Config) :
  (root (snd (generate_and_validate ver fs c)) = root c
   /\ cache (snd (generate_and_validate ver fs c)) = cache c
   /\ exists new,
        errors (snd (generate_and_validate ver fs c)) = errors c ++ new)
  /\ (root (snd (validate ver fs c)) = root c
      /\ (forall k, k <> "mypy_config" ->
            cache (snd (validate ver fs c)) !! k = cache c !! k)
      /\ exists new, errors (snd (validate ver fs c)) = errors c ++ new).
Proof.
  destruct (generate_and_validate_frame fs c) as [new Hnew].
  split.
  - rewrite Hnew. simpl. repeat split. now exists new.
  - rewrite validate_unfold.
    destruct (generate_and_validate ver fs c) as [[content|e] c1];
      simpl in Hnew; subst c1.
    + assert (Hcache : forall k, k <> "mypy_config" ->
                <["mypy_config" := content]> (cache c) !! k = cache c !! k).
      { intros k Hk. apply lookup_insert_ne. congruence. }
      cbv zeta. destruct (any_mypy_error _).
      * simpl. repeat split; [exact Hcache | now exists new].
      * destruct (read_text fs _) as [text|e].
        -- destruct (negb _); simpl; repeat split; try exact Hcache.
           ++ exists (new ++ [stale_error]). now rewrite app_assoc.
           ++ now exists new.
        -- simpl. repeat split; [exact Hcache | now exists new].
    + simpl. repeat split. now exists new.
Qed.

(** C7: the value that [generate_and_validate] returns (or the exception
    it raises) is a function of the root, the declaration file and the
    filesystem alone: two contexts with the same root on which no error of
    this plugin is present after validation get the same result, and a
    second call in the context left by the first repeats it exactly. *)
Theorem rendering_deterministic (fs : FS) (c c' : Config) :
  root c = root c' ->
  any_mypy_error (errors (snd (generate_and_validate ver fs c))) = false ->
  any_mypy_error (errors (snd (generate_and_validate ver fs c'))) = false ->
  fst (generate_and_validate ver fs c) = fst (generate_and_validate ver fs c')
  /\ generate_and_validate ver fs (snd (generate_and_validate ver fs c))
     = generate_and_validate ver fs c.
Proof.
  intros Hroot H1 H2.
  assert (Hpath : strict_path c' = strict_path c)
    by (unfold strict_path; now rewrite Hroot).
  split.
  - revert H1 H2. rewrite !generate_and_validate_unfold, Hpath.
    destruct (readlines fs (strict_path c)) as [lines|e]; [|reflexivity].
    simpl. intros -> ->. reflexivity.
  - revert H1. rewrite (generate_and_validate_unfold ver fs c).
    destruct (readlines fs (strict_path c)) as [lines|e] eqn:Hread.
    + simpl. intros H1.
      destruct (validation_clean _ _ _ H1) as [_ Hnil].
      rewrite Hnil, append_errors_nil.
      rewrite generate_and_validate_unfold, Hread. simpl.
      now rewrite Hnil, append_errors_nil.
    + simpl. intros _. now rewrite generate_and_validate_unfold, Hread.
Qed.

End ContextClaims.

(** ** The rendering *)

Section Rendering.

Import configparser.

Lemma rbind_assoc {A B C} (m : result A) (f : A -> result B) (g : B -> result C) :
  rbind (rbind m f) g = rbind m (fun x => rbind (f x) g).
Proof. now destruct m. Qed.

Lemma rbind_ret_r {A} (m : result A) : rbind m Ok = m.
Proof. now destruct m. Qed.

Lemma rbind_ext {A B} (m : result A) (f g : A -> result B) :
  (forall a, f a = g a) -> rbind m f = rbind m g.
Proof. intros H. destruct m; simpl; [apply H | reflexivity]. Qed.

Lemma rfold_app {A S} (f : S -> A -> result S) (l1 l2 : list A) (a : S) :
  rfold f (l1 ++ l2) a = rbind (rfold f l1 a) (fun a' => rfold f l2 a').
Proof.
  revert a. induction l1 as [|x l1 IH]; intros a; simpl; [reflexivity|].
  rewrite rbind_assoc. apply rbind_ext. intros a'. apply IH.
Qed.

Lemma rfold_map {A B S} (f : S -> B -> result S) (g : A -> B) (l : list A) (a : S) :
  rfold f (map g l) a = rfold (fun a x => f a (g x)) l a.
Proof.
  revert a. induction l as [|x l IH]; intros a; simpl; [reflexivity|].
  apply rbind_ext. intros a'. apply IH.
Qed.

Lemma rfold_ext {A S} (f g : S -> A -> result S) (l : list A) (a : S) :
  (forall a x, f a x = g a x) -> rfold f l a = rfold g l a.
Proof.
  intros H. revert a. induction l as [|x l IH]; intros a; simpl; [reflexivity|].
  rewrite H. apply rbind_ext. intros a'. apply IH.
Qed.

Lemma rfold_cons {A S} (f : S -> A -> result S) (x : A) (l : list A) (a : S) :
  rfold f (x :: l) a = rbind (f a x) (fun a' => rfold f l a').
Proof. reflexivity. Qed.

Lemma render_config_document (ver : list Z) (strict core : list string) :
  render_config ver strict core
  = rbind (rfold add_full_section (settings_document ver strict core)
                 configparser.new)
          (fun cp => Ok (HEADER +:+ strip (configparser.write cp))).
Proof.
  unfold render_config, settings_document, strict_options.
  rewrite rfold_cons. unfold add_full_section at 1. cbn [fst snd].
  rewrite !rbind_assoc. apply rbind_ext. intros cp1.
  rewrite rfold_app. rewrite !rbind_assoc.
  apply rbind_ext. intros cp2.
  rewrite rfold_map.
  apply rbind_ext. intros cp3.
  rewrite rfold_app, rfold_map, !rbind_assoc.
  apply rbind_ext. intros cp4.
  rewrite rfold_cons. unfold add_full_section at 1. cbn [fst snd].
  rewrite !rbind_assoc. apply rbind_ext. intros cp5.
  rewrite rfold_map. apply rbind_ext. intros cp6.
  rewrite rfold_app, rfold_map, !rbind_assoc.
  apply rbind_ext. intros cp7.
  rewrite rfold_cons. unfold add_full_section at 1. cbn [fst snd].
  rewrite !rbind_assoc. apply rbind_ext. intros cp8.
  rewrite rfold_map. apply rbind_ext. intros cp9.
  rewrite rfold_map.
  match goal with
  | |- rbind (rfold ?f _ _) _ = rbind (rfold ?g _ _) _ =>
      rewrite (rfold_ext f g)
  end; [reflexivity|].
  intros cp m. unfold add_full_section. cbn [fst snd].
  apply rbind_ext. intros cp'. cbn [rfold]. now rewrite rbind_ret_r.
Qed.


Lemma has_section_In (n : string) (cp : ConfigParser) :
  has_section n cp = true <-> In n (map fst (sections cp)).
Proof.
  unfold has_section. rewrite existsb_exists, in_map_iff. split.
  - intros (e & Hin & He). apply String.eqb_eq in He. now exists e.
  - intros (e & He & Hin). exists e. split; [exact Hin|].
    now apply String.eqb_eq.
Qed.

Lemma has_section_last (n : string) (dflt d : list (string * string))
    (l : list (string * list (string * string))) :
  has_section n (mkParser dflt (l ++ [(n, d)])) = true.
Proof.
  apply has_section_In. simpl. rewrite map_app. apply in_or_app.
  right. now left.
Qed.

Lemma sections_set_last (n k v : string) (d : list (string * string))
    (l : list (string * list (string * string))) :
  ~ In n (map fst l) ->
  sections_set n k v (l ++ [(n, d)]) = l ++ [(n, dict_set k v d)].
Proof.
  induction l as [|[n' d'] l IH]; intros Hnin; simpl.
  - now rewrite String.eqb_refl.
  - simpl in Hnin. destruct (String.eqb n' n) eqn:He.
    + apply String.eqb_eq in He. tauto.
    + rewrite IH by tauto. reflexivity.
Qed.

Lemma rfold_set_items (n : string) (items dflt : list (string * string))
    (l : list (string * list (string * string))) :
  usable_name n -> ~ In n (map fst l) ->
  forall d,
    rfold (fun cp kv => set n (fst kv) (snd kv) cp) items
          (mkParser dflt (l ++ [(n, d)]))
    = Ok (mkParser dflt (l ++ [(n, dict_of items d)])).
Proof.
  intros Hn Hnin. induction items as [|[k v] items IH]; intros d.
  - reflexivity.
  - cbn [rfold]. unfold set at 1. unfold usable_name in Hn. rewrite Hn.
    rewrite has_section_last. cbn [rbind defaults sections fst snd].
    rewrite sections_set_last by exact Hnin. apply IH.
Qed.

Lemma add_full_section_cases (cp : ConfigParser) (n : string)
    (items : list (string * string)) :
  usable_name n ->
  add_full_section cp (n, items)
  = if has_section n cp then Raise (DuplicateSectionError n)
    else Ok (mkParser (defaults cp)
                      (sections cp ++ [stored_section (n, items)])).
Proof.
  intros Hn. unfold add_full_section, add_section. cbn [fst snd].
  assert (Hd : String.eqb n default_section = false).
  { unfold usable_name in Hn. now apply orb_false_elim in Hn. }
  rewrite Hd. destruct (has_section n cp) eqn:Hs; [reflexivity|].
  cbn [rbind]. apply rfold_set_items; [exact Hn|].
  intros Hin. apply has_section_In in Hin. congruence.
Qed.

Lemma build_document_inv (doc : list (string * list (string * string))) :
  Forall usable_name (map fst doc) ->
  forall cp cp',
    rfold add_full_section doc cp = Ok cp' ->
    cp' = mkParser (defaults cp) (sections cp ++ map stored_section doc).
Proof.
  induction doc as [|[n items] doc IH]; intros Hgood cp cp' H.
  - simpl in H. injection H as <-. simpl. rewrite app_nil_r. now destruct cp.
  - inversion Hgood as [|? ? Hn Hrest]; subst.
    cbn [rfold] in H. rewrite add_full_section_cases in H by exact Hn.
    destruct (has_section n cp); [discriminate|]. cbn [rbind] in H.
    apply IH in H; [|exact Hrest]. rewrite H. cbn [defaults sections map].
    now rewrite <- app_assoc.
Qed.

Lemma build_document_ok (doc : list (string * list (string * string))) :
  Forall usable_name (map fst doc) ->
  forall cp,
    NoDup (map fst (sections cp) ++ map fst doc) ->
    rfold add_full_section doc cp
    = Ok (mkParser (defaults cp) (sections cp ++ map stored_section doc)).
Proof.
  induction doc as [|[n items] doc IH]; intros Hgood cp Hnd.
  - simpl. rewrite app_nil_r. now destruct cp.
  - inversion Hgood as [|? ? Hn Hrest]; subst.
    cbn [rfold]. rewrite add_full_section_cases by exact Hn.
    cbn [map fst] in Hnd.
    destruct (has_section n cp) eqn:Hs.
    + apply has_section_In in Hs. apply NoDup_app in Hnd as (_ & Hnd & _).
      exfalso. apply (Hnd n); [now apply list_elem_of_In | now left].
    + cbn [rbind]. rewrite IH; [|exact Hrest|].
      * cbn [defaults sections map]. now rewrite <- app_assoc.
      * cbn [sections]. rewrite map_app. cbn [map fst stored_section].
        now rewrite <- app_assoc.
Qed.

Lemma usable_mypy_prefix (m : string) : usable_name ("mypy-" +:+ m).
Proof. reflexivity. Qed.

Lemma settings_document_names (ver : list Z) (strict core : list string) :
  map fst (settings_document ver strict core) = section_names strict core.
Proof.
  unfold settings_document, section_names.
  cbn [map fst]. rewrite map_app. cbn [map fst]. rewrite map_app.
  cbn [map fst]. now rewrite !map_map.
Qed.

Lemma settings_document_usable (ver : list Z) (strict core : list string) :
  Forall usable_name (map fst (settings_document ver strict core)).
Proof.
  rewrite settings_document_names. unfold section_names.
  assert (Hmap : forall l : list string,
             Forall usable_name (map (fun m => "mypy-" +:+ m) l)).
  { intros l. apply Forall_forall. intros x Hx. apply list_elem_of_In in Hx.
    apply in_map_iff in Hx as (m & <- & _). apply usable_mypy_prefix. }
  apply Forall_cons; split; [reflexivity|]. apply Forall_app; split; [apply Hmap|].
  apply Forall_cons; split; [reflexivity|]. apply Forall_app; split; [apply Hmap|].
  apply Forall_cons; split; [reflexivity|]. apply Hmap.
Qed.

Lemma settings_document_stored (ver : list Z) (strict core : list string) :
  map stored_section (settings_document ver strict core)
  = settings_document ver strict core.
Proof.
  unfold settings_document, GENERAL_SETTINGS.
  generalize (join "." (map str_int (firstn 2 ver))). intros pv.
  cbn [map]. rewrite map_app. cbn [map]. rewrite map_app. cbn [map].
  rewrite !map_map.
  repeat match goal with
         | |- _ :: _ = _ :: _ => apply (f_equal2 cons); [reflexivity|]
         | |- _ ++ _ = _ ++ _ => apply (f_equal2 (@app _))
         | |- map _ _ = map _ _ => apply map_ext; intros m; reflexivity
         end.
Qed.

Lemma write_document (doc : list (string * list (string * string))) :
  write (mkParser [] doc) = document_text doc.
Proof. reflexivity. Qed.

Lemma render_config_inv (ver : list Z) (strict core : list string) (s : string) :
  render_config ver strict core = Ok s ->
  s = HEADER +:+ strip (document_text (settings_document ver strict core)).
Proof.
  rewrite render_config_document. intros H.
  destruct (rfold add_full_section _ new) as [cp|e] eqn:Hb; [|discriminate].
  apply build_document_inv in Hb; [|apply settings_document_usable].
  cbn [rbind] in H. injection H as <-. rewrite Hb.
  cbn [defaults sections new app]. 
  now rewrite settings_document_stored, write_document.
Qed.

Lemma render_config_ok (ver : list Z) (strict core : list string) :
  NoDup (section_names strict core) ->
  render_config ver strict core
  = Ok (HEADER +:+ strip (document_text (settings_document ver strict core))).
Proof.
  intros Hnd. rewrite render_config_document.
  rewrite build_document_ok.
  - cbn [rbind defaults sections new app].
    now rewrite settings_document_stored, write_document.
  - apply settings_document_usable.
  - cbn [sections new app]. now rewrite settings_document_names.
Qed.

End Rendering.

(** ** Claims about the rendering *)

Section RenderingClaims.

Variable ver : list Z.

Lemma concat_cons (x : string) (l : list string) :
  String.concat "" (x :: l) = x +:+ String.concat "" l.
Proof.
  destruct l as [|y l]; simpl.
  - now rewrite append_nil_r.
  - reflexivity.
Qed.

Lemma ignored_are_wildcards (m : string) :
  In m IGNORED_MODULES -> endswith m ".*" = true.
Proof.
  assert (H : forallb (fun m => endswith m ".*") IGNORED_MODULES = true)
    by (vm_compute; reflexivity).
  rewrite forallb_forall in H. apply H.
Qed.

Lemma existence_errors_nil (fs : FS) (ms : list string) :
  (forall m, In m ms -> module_exists fs m = true) ->
  existence_errors fs ms = [].
Proof.
  intros H. unfold existence_errors.
  induction ms as [|m ms IH]; [reflexivity|]. simpl.
  rewrite (H m) by now left. simpl. apply IH.
  intros x Hx. apply H. now right.
Qed.

Lemma section_names_empty_NoDup : NoDup (section_names [] []).
Proof.
  apply (bool_decide_unpack (NoDup (section_names [] []))).
  vm_compute. exact I.
Qed.

(** The guard of lines 184-186 and the rendering behind it: once the
    validation passes have run, the call returns the empty string whenever
    the error sink holds an error of this plugin; when it holds none and the
    section names are pairwise distinct, the call returns the header
    followed by the trimmed text of the settings document. *)
Lemma render_gate (fs : FS) (c : Config) (lines : list string) :
  readlines fs (strict_path c) = Ok lines ->
  let strict := component_strict (parse_modules lines) in
  let core := core_strict (parse_modules lines) in
  let after := errors c ++ validation_errors fs (parse_modules lines) in
  errors (snd (generate_and_validate ver fs c)) = after
  /\ (any_mypy_error after = true ->
      fst (generate_and_validate ver fs c) = Ok "")
  /\ (any_mypy_error after = false ->
      NoDup (section_names strict core) ->
      fst (generate_and_validate ver fs c)
      = Ok (HEADER
            +:+ strip (document_text (settings_document ver strict core)))).
Proof.
  intros Hread strict core after.
  rewrite generate_and_validate_unfold, Hread. cbn [fst snd].
  split; [reflexivity|]. unfold append_errors. cbn [errors].
  fold after. split.
  - intros ->. reflexivity.
  - intros -> Hnd. now apply render_config_ok.
Qed.

(** C4: for a declaration file without any module, in a context without
    errors of this plugin and a tree holding the directory of every ignored
    module, the call leaves the context as it was and returns the header
    followed by the trimmed text of: the [mypy] section, the
    [mypy-homeassistant.components.*] section with every strict option
    "false", the [mypy-tests.*] section with every strict option "false",
    and one [mypy-<module>] section holding ignore_errors = "true" per
    ignored module, in the order of the ignore list. *)
Theorem empty_declaration_sections (fs : FS) (c : Config) (lines : list string) :
  readlines fs (strict_path c) = Ok lines ->
  parse_modules lines = [] ->
  any_mypy_error (errors c) = false ->
  (forall m, In m IGNORED_MODULES ->
             is_dir fs (replace "." "/" (slice_to_neg 2 m)) = true) ->
  generate_and_validate ver fs c
  = (Ok (HEADER
         +:+ strip
               (configparser.write_section "mypy"
                  (GENERAL_SETTINGS ver
                   ++ map (fun key => (key, "true")) STRICT_SETTINGS)
                +:+ configparser.write_section "mypy-homeassistant.components.*"
                      (map (fun key => (key, "false")) STRICT_SETTINGS)
                +:+ configparser.write_section "mypy-tests.*"
                      (map (fun key => (key, "false")) STRICT_SETTINGS)
                +:+ String.concat ""
                      (map (fun m => configparser.write_section
                                       ("mypy-" +:+ m)
                                       [("ignore_errors", "true")])
                           IGNORED_MODULES))),
     c).
Proof.
  intros Hread Hparsed Hclean Hdirs.
  rewrite generate_and_validate_unfold, Hread, Hparsed. cbv zeta.
  assert (Hv : validation_errors fs [] = []).
  { unfold validation_errors. cbn [component_strict core_strict List.filter
                                     flat_map app].
    apply existence_errors_nil. intros m Hm. unfold module_exists.
    rewrite (ignored_are_wildcards m Hm). now apply Hdirs. }
  rewrite Hv, append_errors_nil, Hclean.
  cbn [component_strict core_strict List.filter].
  rewrite render_config_ok by apply section_names_empty_NoDup.
  unfold settings_document, document_text, strict_options.
  cbn [map app fst snd]. rewrite !concat_cons, map_map. reflexivity.
Qed.

(** Where the call is sure to return: when the declaration file can be
    read, the call returns without raising, its findings being exactly the
    validation errors added to the sink, provided the validation passes left
    an error of this plugin in the sink or the section names are pairwise
    distinct. *)
Lemma returns_without_raising (fs : FS) (c : Config) (lines : list string) :
  readlines fs (strict_path c) = Ok lines ->
  let strict := component_strict (parse_modules lines) in
  let core := core_strict (parse_modules lines) in
  let found := validation_errors fs (parse_modules lines) in
  any_mypy_error (errors c ++ found) = true
  \/ NoDup (section_names strict core) ->
  exists text,
    generate_and_validate ver fs c = (Ok text, append_errors found c).
Proof.
  intros Hread strict core found Hcase.
  rewrite generate_and_validate_unfold, Hread. cbv zeta.
  unfold append_errors at 1. cbn [errors]. fold found.
  destruct (any_mypy_error (errors c ++ found)) eqn:Hany.
  - now exists "".
  - destruct Hcase as [Hcase|Hnd]; [discriminate|].
    eexists. now rewrite render_config_ok by exact Hnd.
Qed.

End RenderingClaims.

(** ** Claims about the declaration file *)

Section DeclarationClaims.

Variable ver : list Z.




End DeclarationClaims.

(** ** Characters of the rendered text *)

Section Chars.
Variable P : ascii -> bool.

Lemma all_chars_append (a b : string) :
  all_chars P (a +:+ b) = all_chars P a && all_chars P b.
Proof.
  induction a as [|x a IH]; [reflexivity|].
  rewrite append_cons. simpl. rewrite IH. now rewrite andb_assoc.
Qed.

Lemma all_chars_lstrip (s : string) :
  all_chars P s = true -> all_chars P (lstrip s) = true.
Proof.
  induction s as [|x s IH]; [reflexivity|]. intros H. simpl.
  destruct (isspace x); [|exact H].
  simpl in H. apply andb_prop in H as [_ H]. now apply IH.
Qed.

Lemma all_chars_rstrip (s : string) :
  all_chars P s = true -> all_chars P (rstrip s) = true.
Proof.
  induction s as [|x s IH]; [reflexivity|]. intros H. simpl in *.
  apply andb_prop in H as [Hx H]. specialize (IH H).
  destruct (rstrip s) as [|y r].
  - destruct (isspace x); simpl; [reflexivity|]. now rewrite Hx.
  - simpl. rewrite Hx. exact IH.
Qed.

Lemma all_chars_strip (s : string) :
  all_chars P s = true -> all_chars P (strip s) = true.
Proof. intros H. unfold strip. now apply all_chars_rstrip, all_chars_lstrip. Qed.

Lemma all_chars_replace (old : ascii) (new s : string) :
  all_chars P new = true -> all_chars P s = true ->
  all_chars P (replace old new s) = true.
Proof.
  intros Hnew. induction s as [|x s IH]; [reflexivity|]. intros H.
  simpl in H. apply andb_prop in H as [Hx H]. simpl.
  destruct (Ascii.eqb x old).
  - rewrite all_chars_append, Hnew. now apply IH.
  - simpl. rewrite Hx. now apply IH.
Qed.

Lemma all_chars_concat (l : list string) :
  Forall (fun s => all_chars P s = true) l ->
  all_chars P (String.concat "" l) = true.
Proof.
  induction l as [|x l IH]; [reflexivity|]. intros H.
  apply Forall_cons in H as [Hx H]. rewrite concat_cons, all_chars_append, Hx.
  now apply IH.
Qed.

Lemma all_chars_splitlines (s : string) :
  all_chars P s = true ->
  Forall (fun l => all_chars P l = true) (splitlines_keepends s).
Proof.
  induction s as [|x s IH]; [constructor|]. intros H. simpl in H.
  apply andb_prop in H as [Hx H]. specialize (IH H). simpl.
  destruct (Ascii.eqb x LF).
  - apply Forall_cons. split; [|exact IH]. simpl. now rewrite Hx.
  - destruct (splitlines_keepends s) as [|l ls].
    + apply Forall_cons. split; [|constructor]. simpl. now rewrite Hx.
    + apply Forall_cons in IH as [Hl Hls]. apply Forall_cons. split; [|exact Hls].
      simpl. now rewrite Hx.
Qed.

End Chars.

Lemma universal_newlines_no_cr (s : string) :
  all_chars not_cr (universal_newlines s) = true.
Proof.
  assert (H : forall n s, String.length s <= n ->
                          all_chars not_cr (universal_newlines s) = true).
  { intros n. induction n as [|n IH]; intros [|c r] Hlen; simpl in *;
      try reflexivity; [lia|].
    destruct (Ascii.eqb c CR) eqn:Hc.
    - destruct r as [|c' r']; [reflexivity|].
      destruct (Ascii.eqb c' LF); simpl.
      + apply IH. simpl in Hlen. lia.
      + apply (IH (String c' r')). lia.
    - simpl. unfold not_cr at 1. rewrite Hc. simpl. apply IH. lia. }
  apply (H (String.length s)). lia.
Qed.

Lemma universal_newlines_id (s : string) :
  all_chars not_cr s = true -> universal_newlines s = s.
Proof.
  induction s as [|c r IH]; [reflexivity|]. intros H. simpl in H.
  apply andb_prop in H as [Hc H]. simpl.
  unfold not_cr in Hc. apply negb_true_iff in Hc. rewrite Hc.
  now rewrite IH.
Qed.

Lemma string_of_uint_no_cr (d : Decimal.uint) :
  all_chars not_cr (NilEmpty.string_of_uint d) = true.
Proof. induction d; simpl; auto. Qed.

Lemma str_int_no_cr (z : Z) : all_chars not_cr (str_int z) = true.
Proof.
  unfold str_int, NilZero.string_of_int, NilZero.string_of_uint.
  destruct (Z.to_int z) as [d|d].
  - destruct d; try reflexivity; apply (string_of_uint_no_cr (_ d)).
  - simpl. destruct d; try reflexivity; apply (string_of_uint_no_cr (_ d)).
Qed.

Lemma join_no_cr (sep : string) (l : list string) :
  all_chars not_cr sep = true ->
  Forall (fun s => all_chars not_cr s = true) l ->
  all_chars not_cr (join sep l) = true.
Proof.
  intros Hsep. induction l as [|x l IH]; [reflexivity|]. intros H.
  apply Forall_cons in H as [Hx H]. specialize (IH H).
  destruct l as [|y l]; [exact Hx|].
  change (join sep (x :: y :: l)) with (x +:+ sep +:+ join sep (y :: l)).
  now rewrite !all_chars_append, Hx, Hsep, IH.
Qed.

Lemma python_version_no_cr (ver : list Z) :
  all_chars not_cr (join "." (map str_int (firstn 2 ver))) = true.
Proof.
  apply join_no_cr; [reflexivity|].
  apply Forall_forall. intros s Hs. apply list_elem_of_In in Hs.
  apply in_map_iff in Hs as (z & <- & _). apply str_int_no_cr.
Qed.

Lemma parse_modules_all_chars (P : ascii -> bool) (lines : list string) :
  Forall (fun l => all_chars P l = true) lines ->
  Forall (fun m => all_chars P m = true) (parse_modules lines).
Proof.
  intros H. rewrite Forall_forall in *. intros m Hm.
  apply list_elem_of_In in Hm. unfold parse_modules in Hm.
  apply in_map_iff in Hm as (l & <- & Hl). apply filter_In in Hl as [Hl _].
  apply all_chars_strip. apply H. now apply list_elem_of_In.
Qed.

Lemma readlines_no_cr (fs : FS) (p : string) (lines : list string) :
  readlines fs p = Ok lines ->
  Forall (fun l => all_chars not_cr l = true) lines.
Proof.
  unfold readlines, read_text. destruct (fs !! p) as [[content|]|]; try discriminate.
  simpl. intros H. injection H as <-.
  apply all_chars_splitlines, universal_newlines_no_cr.
Qed.

Lemma write_item_no_cr (kv : string * string) :
  all_chars not_cr (fst kv) = true -> all_chars not_cr (snd kv) = true ->
  all_chars not_cr (configparser.write_item kv) = true.
Proof.
  intros Hk Hv. unfold configparser.write_item.
  rewrite !all_chars_append, Hk. simpl.
  rewrite all_chars_replace; [reflexivity|reflexivity|exact Hv].
Qed.

Lemma write_section_no_cr (e : string * list (string * string)) :
  no_cr_section e ->
  all_chars not_cr (configparser.write_section (fst e) (snd e)) = true.
Proof.
  intros [Hn Hi]. unfold configparser.write_section.
  rewrite !all_chars_append, Hn. simpl. rewrite andb_true_r.
  apply all_chars_concat. apply Forall_forall. intros s Hs.
  apply list_elem_of_In in Hs. apply in_map_iff in Hs as (kv & <- & Hkv).
  rewrite Forall_forall in Hi. apply list_elem_of_In in Hkv.
  destruct (Hi kv Hkv). now apply write_item_no_cr.
Qed.

Lemma document_text_no_cr (doc : list (string * list (string * string))) :
  Forall no_cr_section doc -> all_chars not_cr (document_text doc) = true.
Proof.
  intros H. unfold document_text. apply all_chars_concat.
  apply Forall_forall. intros s Hs. apply list_elem_of_In in Hs.
  apply in_map_iff in Hs as (e & <- & He).
  rewrite Forall_forall in H. apply write_section_no_cr, H.
  now apply list_elem_of_In.
Qed.

Lemma settings_document_no_cr (ver : list Z) (strict core : list string) :
  Forall (fun m => all_chars not_cr m = true) strict ->
  Forall (fun m => all_chars not_cr m = true) core ->
  Forall no_cr_section (settings_document ver strict core).
Proof.
  intros Hs Hc. unfold settings_document, GENERAL_SETTINGS.
  pose proof (python_version_no_cr ver) as Hpv.
  revert Hpv. generalize (join "." (map str_int (firstn 2 ver))). intros pv Hpv.
  assert (Hfix : forall (items : list (string * string)) (l : list string),
             Forall (fun kv => all_chars not_cr (fst kv) = true
                               /\ all_chars not_cr (snd kv) = true) items ->
             Forall (fun m => all_chars not_cr m = true) l ->
             Forall no_cr_section (map (fun m => ("mypy-" +:+ m, items)) l)).
  { intros items l Hi Hl. apply Forall_forall. intros e He.
    apply list_elem_of_In in He. apply in_map_iff in He as (m & <- & Hm).
    rewrite Forall_forall in Hl. split; [|exact Hi]. cbn [fst].
    rewrite all_chars_append. apply list_elem_of_In in Hm.
    now rewrite (Hl m Hm). }
  assert (Hconst : forall l : list string,
             Forall (fun m => all_chars not_cr m = true) l <->
             forallb (all_chars not_cr) l = true).
  { intros l. rewrite forallb_forall, Forall_forall. split; intros H x Hx;
      apply H; now apply list_elem_of_In. }
  assert (Hitems : forall items : list (string * string),
             forallb (fun kv => all_chars not_cr (fst kv)
                                && all_chars not_cr (snd kv)) items = true ->
             Forall (fun kv => all_chars not_cr (fst kv) = true
                               /\ all_chars not_cr (snd kv) = true) items).
  { intros items H. rewrite forallb_forall in H. apply Forall_forall.
    intros kv Hkv. apply list_elem_of_In in Hkv.
    now apply andb_prop, H. }
  apply Forall_cons. split.
  { split; [reflexivity|]. apply Hitems. cbn. rewrite Hpv. reflexivity. }
  apply Forall_app. split; [apply Hfix; [now apply Hitems|exact Hc]|].
  apply Forall_cons. split; [split; [reflexivity|now apply Hitems]|].
  apply Forall_app. split; [apply Hfix; [now apply Hitems|exact Hs]|].
  apply Forall_cons. split; [split; [reflexivity|now apply Hitems]|].
  apply Hfix; [now apply Hitems|]. apply Hconst. vm_compute. reflexivity.
Qed.

(** ** Trimming *)

Lemma rstrip_all_space (t : string) :
  all_chars isspace t = true -> rstrip t = "".
Proof.
  induction t as [|c t IH]; [reflexivity|]. intros H. simpl in H.
  apply andb_prop in H as [Hc H]. simpl. now rewrite IH, Hc.
Qed.

Lemma rstrip_append_space (s t : string) :
  all_chars isspace t = true -> rstrip (s +:+ t) = rstrip s.
Proof.
  intros H. induction s as [|c s IH].
  - rewrite append_nil_l. now apply rstrip_all_space.
  - rewrite append_cons. simpl. now rewrite IH.
Qed.

Lemma rstrip_idem (s : string) : rstrip (rstrip s) = rstrip s.
Proof.
  induction s as [|c s IH]; [reflexivity|]. simpl.
  destruct (rstrip s) as [|y r] eqn:Hr.
  - destruct (isspace c) eqn:Hc; [reflexivity|]. simpl. now rewrite Hc.
  - simpl in *. now rewrite IH.
Qed.

Lemma rstrip_append_nonempty (a b : string) :
  rstrip b <> "" -> rstrip (a +:+ b) = a +:+ rstrip b.
Proof.
  intros Hb. induction a as [|c a IH]; [reflexivity|].
  rewrite !append_cons. simpl. rewrite IH.
  destruct (a +:+ rstrip b) as [|y r] eqn:Ha; [|reflexivity].
  destruct a; [|discriminate]. rewrite append_nil_l in Ha. contradiction.
Qed.

Lemma rstrip_nonspace_head (c : ascii) (s : string) :
  isspace c = false -> rstrip (String c s) <> "".
Proof.
  intros Hc. simpl. destruct (rstrip s); [now rewrite Hc|discriminate].
Qed.

Lemma document_text_head (ver : list Z) (strict core : list string) :
  exists r, document_text (settings_document ver strict core) = String "[" r.
Proof.
  unfold document_text, settings_document. cbn [map]. rewrite concat_cons.
  unfold configparser.write_section. cbn [fst]. eexists. reflexivity.
Qed.

(** The rendered text survives being written with a final newline and read
    back and trimmed. *)
Lemma rendered_text_trimmed (ver : list Z) (strict core : list string) :
  let content :=
    HEADER +:+ strip (document_text (settings_document ver strict core)) in
  strip (content +:+ nl) = content.
Proof.
  destruct (document_text_head ver strict core) as [r Hr].
  cbv zeta. rewrite Hr. unfold strip at 2.
  change (lstrip (String "[" r)) with (String "[" r).
  assert (Hne : rstrip (String "[" r) <> "")
    by (apply rstrip_nonspace_head; reflexivity).
  unfold strip.
  assert (Hhead : exists h, HEADER = String "#" h) by (eexists; reflexivity).
  destruct Hhead as [h Hh]. rewrite Hh at 1. rewrite !append_cons.
  change (lstrip (String "#" ?x)) with (String "#" x).
  rewrite <- !append_cons, <- Hh.
  rewrite rstrip_append_space by reflexivity.
  rewrite rstrip_append_nonempty by (now rewrite rstrip_idem).
  now rewrite rstrip_idem.
Qed.

(** ** Writing the file and checking it again *)

Section RoundTrip.

Variable ver : list Z.

Lemma module_exists_same (c : Config) (fs fs' : FS) (m : string) :
  same_for_validation c fs fs' -> module_exists fs' m = module_exists fs m.
Proof.
  intros (_ & Hdir & Hfile). unfold module_exists.
  destruct (endswith m ".*"); [apply Hdir|].
  rewrite !Hfile; [reflexivity| |]; now rewrite last_char_append.
Qed.

Lemma generate_and_validate_same (c : Config) (fs fs' : FS) :
  same_for_validation c fs fs' ->
  generate_and_validate ver fs' c = generate_and_validate ver fs c.
Proof.
  intros Hsame. rewrite !generate_and_validate_unfold.
  assert (Hread : readlines fs' (strict_path c) = readlines fs (strict_path c)).
  { unfold readlines, read_text. destruct Hsame as (-> & _). reflexivity. }
  rewrite Hread. destruct (readlines fs (strict_path c)) as [lines|e];
    [|reflexivity].
  assert (Hv : validation_errors fs' (parse_modules lines)
               = validation_errors fs (parse_modules lines)).
  { unfold validation_errors, existence_errors. do 2 f_equal.
    apply filter_ext. intros m. now rewrite (module_exists_same c fs fs'). }
  cbv zeta. now rewrite Hv.
Qed.

Lemma last_char_path_join (p : string) (c : ascii) (t : string) :
  last_char (path_join p (String c t)) = last_char (String c t).
Proof.
  unfold path_join. rewrite <- append_assoc. apply last_char_append.
Qed.

Lemma written_file_same (c : Config) (fs : FS) (text : string) :
  fs !! mypy_ini_path c <> Some Dir ->
  same_for_validation c fs (<[mypy_ini_path c := File text]> fs).
Proof.
  intros Hnd. unfold same_for_validation, mypy_ini_path, strict_path in *.
  split; [|split].
  - apply lookup_insert_ne. intros H. apply (f_equal last_char) in H.
    rewrite !last_char_path_join in H. discriminate.
  - intros p. unfold is_dir.
    destruct (decide (path_join (root c) "mypy.ini" = p)) as [<-|Hne].
    + rewrite lookup_insert_eq.
      destruct (fs !! path_join (root c) "mypy.ini") as [[|]|];
        try reflexivity. congruence.
    + now rewrite lookup_insert_ne.
  - intros p Hp. unfold is_file. rewrite lookup_insert_ne; [reflexivity|].
    intros H. subst p. rewrite last_char_path_join in Hp. discriminate.
Qed.

(** Writing the cached text and checking it again, step by step. *)
Lemma round_trip_from_cache (fs : FS) (c : Config) (content : string) :
  fst (generate_and_validate ver fs c) = Ok content ->
  any_mypy_error (errors (snd (generate_and_validate ver fs c))) = false ->
  cache c !! "mypy_config" = Some content ->
  fs !! mypy_ini_path c <> Some Dir ->
  exists fs',
    generate c fs = (Ok tt, fs')
    /\ read_text fs' (mypy_ini_path c) = Ok (content +:+ nl)
    /\ strip (content +:+ nl) = content
    /\ fst (generate_and_validate ver fs' c) = Ok content
    /\ validate ver fs' c = (Ok tt, c).
Proof.
  intros Hret Hclean Hcache Hnd.
  exists (<[mypy_ini_path c := File (content +:+ nl)]> fs).
  assert (Hgen : generate c fs
                 = (Ok tt, <[mypy_ini_path c := File (content +:+ nl)]> fs)).
  { unfold generate, open_w. fold (mypy_ini_path c).
    destruct (fs !! mypy_ini_path c) as [[|]|] eqn:Hl; try congruence;
      rewrite Hcache; unfold write_text; now rewrite insert_insert_eq. }
  pose proof (generate_and_validate_same c fs _
                (written_file_same c fs (content +:+ nl) Hnd)) as Hsame.
  revert Hret Hclean. rewrite generate_and_validate_unfold.
  destruct (readlines fs (strict_path c)) as [lines|e] eqn:Hread;
    [|discriminate].
  cbv zeta. cbn [fst snd]. unfold append_errors at 1 2. cbn [errors].
  intros Hret Hclean. rewrite Hclean in Hret.
  pose proof (render_config_inv _ _ _ _ Hret) as Hshape.
  pose proof (validation_clean _ _ _ Hclean) as [Hc0 Hv].
  assert (Hgav : generate_and_validate ver fs c = (Ok content, c)).
  { rewrite generate_and_validate_unfold, Hread. cbv zeta.
    now rewrite Hv, append_errors_nil, Hc0, Hret. }
  assert (Hnocr : all_chars not_cr (content +:+ nl) = true).
  { rewrite Hshape, !all_chars_append.
    rewrite all_chars_strip; [reflexivity|].
    apply document_text_no_cr, settings_document_no_cr;
      apply Forall_forall; intros m Hm; apply list_elem_of_In in Hm;
      apply filter_In in Hm as [Hm _]; apply list_elem_of_In in Hm;
      revert m Hm; apply Forall_forall, parse_modules_all_chars;
      apply (readlines_no_cr _ _ _ Hread). }
  assert (Hfile : read_text (<[mypy_ini_path c := File (content +:+ nl)]> fs)
                            (mypy_ini_path c) = Ok (content +:+ nl)).
  { unfold read_text. rewrite lookup_insert_eq.
    now rewrite universal_newlines_id. }
  assert (Htrim : strip (content +:+ nl) = content).
  { rewrite Hshape. apply rendered_text_trimmed. }
  split; [exact Hgen|]. split; [exact Hfile|]. split; [exact Htrim|].
  split; [now rewrite Hsame, Hgav|].
  rewrite validate_unfold, Hsame, Hgav. cbv zeta.
  rewrite Hc0, Hfile, Htrim, String.eqb_refl. cbn [negb].
  rewrite insert_id by exact Hcache. now destruct c.
Qed.

(** C2: take a context whose cache holds the text that
    [generate_and_validate] returns, with no error of this plugin in the
    sink after validation, and a tree where mypy.ini is not a directory.
    Then [generate] writes mypy.ini; the file read back is the cached text
    and a line feed, which trimmed is the cached text again; the text
    recomputed on the new tree is the same; and [validate] on the new tree
    returns with the context unchanged, so that no "not up to date" error
    (nor any other) is added. *)
Theorem generate_then_validate_is_clean (fs : FS) (c : Config)
    (content : string) :
  fst (generate_and_validate ver fs c) = Ok content ->
  any_mypy_error (errors (snd (generate_and_validate ver fs c))) = false ->
  cache c !! "mypy_config" = Some content ->
  fs !! mypy_ini_path c <> Some Dir ->
  exists fs',
    generate c fs = (Ok tt, fs')
    /\ read_text fs' (mypy_ini_path c) = Ok (content +:+ nl)
    /\ strip (content +:+ nl) = content
    /\ fst (generate_and_validate ver fs' c) = Ok content
    /\ validate ver fs' c = (Ok tt, c).
Proof. exact (round_trip_from_cache fs c content). Qed.

(** The round trip as the pipeline runs it: when [validate] returned and
    left no error of this plugin, [generate] writes the file and a second
    [validate] returns with the context unchanged. *)
Corollary validate_generate_validate (fs : FS) (c0 c : Config) :
  validate ver fs c0 = (Ok tt, c) ->
  any_mypy_error (errors c) = false ->
  exists fs',
    generate c fs = (Ok tt, fs') /\ validate ver fs' c = (Ok tt, c).
Proof.
  rewrite validate_unfold, generate_and_validate_unfold.
  destruct (readlines fs (strict_path c0)) as [lines|e] eqn:Hread;
    [|discriminate].
  cbv zeta. unfold append_errors at 1. cbn [errors].
  destruct (any_mypy_error (errors c0 ++ validation_errors fs (parse_modules lines)))
    eqn:Hany.
  - cbn [errors append_errors]. rewrite Hany. intros Hval Hclean.
    injection Hval as <-. cbn [errors] in Hclean. congruence.
  - destruct (validation_clean _ _ _ Hany) as [Hc0 Hv].
    rewrite Hv, append_errors_nil.
    destruct (render_config ver _ _) as [content|e] eqn:Hrender;
      [|discriminate].
    rewrite Hc0.
    destruct (read_text fs (mypy_ini_path c0)) as [text|e] eqn:Hfile;
      [|discriminate].
    destruct (negb _); intros Hval Hclean; injection Hval as <-.
    + cbn [errors append_errors] in Hclean.
      rewrite any_mypy_error_app in Hclean.
      apply orb_false_elim in Hclean as [_ Hclean]. discriminate.
    + destruct (round_trip_from_cache fs
                  (mkConfig (root c0) (errors c0)
                            (<["mypy_config" := content]> (cache c0)))
                  content) as (fs' & Hgen & _ & _ & _ & Hagain).
      * rewrite generate_and_validate_unfold. unfold strict_path in *.
        cbn [root]. rewrite Hread. cbv zeta.
        unfold append_errors. cbn [errors fst].
        now rewrite Hany.
      * rewrite generate_and_validate_unfold. unfold strict_path in *.
        cbn [root]. rewrite Hread. cbv zeta.
        unfold append_errors. cbn [errors snd]. exact Hany.
      * cbn [cache]. apply lookup_insert_eq.
      * unfold mypy_ini_path in *. cbn [root]. unfold read_text in Hfile.
        destruct (fs !! path_join (root c0) "mypy.ini") as [[|]|];
          discriminate.
      * now exists fs'.
Qed.

End RoundTrip.

(** ** The theorems at sample inputs *)

(** Closing a goal between closed terms by running both sides. *)
Ltac by_evaluation := vm_compute; reflexivity.

Lemma readlines_sample (decl : string) (extra : list (string * node)) :
  readlines (sample_fs decl extra) (strict_path sample_config)
  = Ok (lines_of decl).
Proof.
  unfold readlines, read_text, sample_fs, strict_path, sample_config, path_join.
  cbn [root app list_to_map foldr].
  change ("/repo" +:+ os_path_sep +:+ ".strict-typing")
    with "/repo/.strict-typing".
  now rewrite lookup_insert_eq.
Qed.

Lemma demo_wildcard_ignored : In "homeassistant.components.demo.*" IGNORED_MODULES.
Proof.
  apply list_elem_of_In.
  apply (bool_decide_unpack
           ("homeassistant.components.demo.*" ∈ IGNORED_MODULES)).
  vm_compute. exact I.
Qed.

Lemma section_names_valid_NoDup :
  NoDup (section_names (component_strict (parse_modules (lines_of decl_valid)))
                       (core_strict (parse_modules (lines_of decl_valid)))).
Proof.
  apply (bool_decide_unpack (NoDup _)). vm_compute. exact I.
Qed.

(** C1, amended claim, on [decl_demo_wildcard]: "homeassistant.components.demo.*"
    is declared once; one "is in ignored list" error for it is reported and
    the empty string is returned. *)
Lemma ignored_entry_contradiction_at_demo :
  readlines fs_demo_wildcard (strict_path sample_config)
  = Ok (lines_of decl_demo_wildcard)
  /\ In "homeassistant.components.demo.*"
        (parse_modules (lines_of decl_demo_wildcard))
  /\ count_occ Error_eq_dec
       (reported sample_ver fs_demo_wildcard sample_config)
       (contradictory_error "homeassistant.components.demo.*") = 1
  /\ fst (generate_and_validate sample_ver fs_demo_wildcard sample_config)
     = Ok "".
Proof.
  assert (Hread : readlines fs_demo_wildcard (strict_path sample_config)
                  = Ok (lines_of decl_demo_wildcard)) by by_evaluation.
  assert (Hin : In "homeassistant.components.demo.*"
                   (parse_modules (lines_of decl_demo_wildcard)))
    by (vm_compute; now left).
  destruct (ignored_entry_contradiction sample_ver fs_demo_wildcard
              sample_config (lines_of decl_demo_wildcard)
              "homeassistant.components.demo.*"
              Hread demo_wildcard_ignored Hin) as [Hcount Hret].
  split; [exact Hread|]. split; [exact Hin|]. split; [|exact Hret].
  rewrite Hcount. by_evaluation.
Defined.

(** C1, as stated, fails on [decl_demo]: "demo" is in the ignored list as
    "homeassistant.components.demo.*" and is a directory on disk (with its
    __init__.py), the declaration list is [homeassistant.components.demo],
    and yet nothing is reported and the value returned is not the empty
    string. *)
Lemma plain_demo_entry_not_contradictory :
  In "homeassistant.components.demo.*" IGNORED_MODULES
  /\ is_dir fs_demo "homeassistant/components/demo" = true
  /\ parse_modules (lines_of decl_demo) = ["homeassistant.components.demo"]
  /\ readlines fs_demo (strict_path sample_config) = Ok (lines_of decl_demo)
  /\ reported sample_ver fs_demo sample_config = []
  /\ fst (generate_and_validate sample_ver fs_demo sample_config) <> Ok "".
Proof.
  split; [exact demo_wildcard_ignored|].
  split; [by_evaluation|].
  split; [by_evaluation|].
  split; [apply readlines_sample|].
  split; [by_evaluation|].
  vm_compute. discriminate.
Qed.

(** C5 on [decl_misplaced]: "homeassistant.components_extra" is classified
    as a component, is misplaced and gets exactly one error. *)
Lemma misplaced_error_per_entry_at_extra :
  readlines fs_misplaced (strict_path sample_config)
  = Ok (lines_of decl_misplaced)
  /\ In "homeassistant.components_extra"
        (component_strict (parse_modules (lines_of decl_misplaced)))
  /\ count_occ Error_eq_dec
       (reported sample_ver fs_misplaced sample_config)
       (misplaced_error "homeassistant.components_extra") = 1.
Proof.
  assert (Hread : readlines fs_misplaced (strict_path sample_config)
                  = Ok (lines_of decl_misplaced)) by by_evaluation.
  assert (Hin : In "homeassistant.components_extra"
                   (component_strict (parse_modules (lines_of decl_misplaced))))
    by (vm_compute; now left).
  split; [exact Hread|]. split; [exact Hin|].
  rewrite (misplaced_error_per_entry sample_ver fs_misplaced sample_config
             (lines_of decl_misplaced) "homeassistant.components_extra"
             Hread Hin).
  by_evaluation.
Defined.

(** C6 on [decl_missing]: the wildcard entry without a folder and the core
    module without a file get one error each, the present component none. *)
Lemma existence_check_at_missing :
  readlines fs_missing (strict_path sample_config) = Ok (lines_of decl_missing)
  /\ reported sample_ver fs_missing sample_config
     = [mkError "mypy_config"
                "Module 'homeassistant.components.bar.* is not a folder" false;
        mkError "mypy_config"
                "Module 'homeassistant/missing doesn't exist" false].
Proof.
  assert (Hread : readlines fs_missing (strict_path sample_config)
                  = Ok (lines_of decl_missing)) by by_evaluation.
  split; [exact Hread|].
  destruct (existence_check_one_error_per_failing_entry sample_ver fs_missing
              sample_config (lines_of decl_missing) Hread) as [_ Hrep].
  rewrite Hrep. by_evaluation.
Defined.

(** C7 on [fs_valid]: a fresh context and one that carries another plugin's
    error and cache entry get the same text, and so does a second call. *)
Lemma rendering_deterministic_at_valid :
  root sample_config = root busy_config
  /\ fst (generate_and_validate sample_ver fs_valid sample_config)
     = fst (generate_and_validate sample_ver fs_valid busy_config)
  /\ generate_and_validate sample_ver fs_valid
       (snd (generate_and_validate sample_ver fs_valid sample_config))
     = generate_and_validate sample_ver fs_valid sample_config.
Proof.
  split; [reflexivity|].
  apply (rendering_deterministic sample_ver fs_valid sample_config busy_config).
  - reflexivity.
  - by_evaluation.
  - by_evaluation.
Defined.

(** C9 on [fs_missing] in [busy_config]: [validate] keeps the unrelated
    cache entry and the error that was already there, and adds its own
    after it. *)
Lemma context_only_appended_at_missing :
  "requirements" <> "mypy_config"
  /\ root (snd (validate sample_ver fs_missing busy_config)) = "/repo"
  /\ cache (snd (validate sample_ver fs_missing busy_config)) !! "requirements"
     = Some "ok"
  /\ exists new,
       errors (snd (validate sample_ver fs_missing busy_config))
       = mkError "codeowners" "CODEOWNERS is stale" true :: new.
Proof.
  destruct (context_only_appended sample_ver fs_missing busy_config)
    as [_ (Hroot & Hcache & new & Herrors)].
  split; [discriminate|]. split; [exact Hroot|]. split.
  - rewrite Hcache by discriminate. by_evaluation.
  - exists new. exact Herrors.
Defined.

(** The guard on [fs_valid]: no error, distinct section names, and the
    header followed by the trimmed document is returned. *)
Lemma render_gate_at_valid :
  readlines fs_valid (strict_path sample_config) = Ok (lines_of decl_valid)
  /\ fst (generate_and_validate sample_ver fs_valid sample_config)
     = Ok (HEADER
           +:+ strip (document_text
                        (settings_document sample_ver
                           ["homeassistant.components.foo"]
                           ["homeassistant.core"]))).
Proof.
  assert (Hread : readlines fs_valid (strict_path sample_config)
                  = Ok (lines_of decl_valid)) by by_evaluation.
  split; [exact Hread|].
  destruct (render_gate sample_ver fs_valid sample_config (lines_of decl_valid)
              Hread) as (_ & _ & Hrender).
  apply Hrender.
  - by_evaluation.
  - exact section_names_valid_NoDup.
Defined.

(** C3 on [decl_all_components]: the one entry is
    homeassistant.components.*, the folder homeassistant/components exists,
    and the validation passes leave no error of this plugin; the call then
    raises [DuplicateSectionError] at the [add_section] of line 211, where
    the header followed by the rendered text is to be returned. *)
Lemma all_components_entry_raises :
  readlines fs_all_components (strict_path sample_config)
  = Ok (lines_of decl_all_components)
  /\ parse_modules (lines_of decl_all_components)
     = ["homeassistant.components.*"]
  /\ any_mypy_error
       (errors (snd (generate_and_validate sample_ver fs_all_components
                       sample_config))) = false
  /\ fst (generate_and_validate sample_ver fs_all_components sample_config)
     = Raise (DuplicateSectionError "mypy-homeassistant.components.*").
Proof.
  split; [apply readlines_sample|]. repeat split; by_evaluation.
Qed.

(** C4 on [decl_empty]: a comment and a blank line declare nothing, and the
    four groups of sections are returned in order. *)
Lemma empty_declaration_sections_at_empty :
  readlines fs_empty (strict_path sample_config) = Ok (lines_of decl_empty)
  /\ parse_modules (lines_of decl_empty) = []
  /\ generate_and_validate sample_ver fs_empty sample_config
     = (Ok (HEADER
            +:+ strip
                  (configparser.write_section "mypy"
                     (GENERAL_SETTINGS sample_ver
                      ++ map (fun key => (key, "true")) STRICT_SETTINGS)
                   +:+ configparser.write_section
                         "mypy-homeassistant.components.*"
                         (map (fun key => (key, "false")) STRICT_SETTINGS)
                   +:+ configparser.write_section "mypy-tests.*"
                         (map (fun key => (key, "false")) STRICT_SETTINGS)
                   +:+ String.concat ""
                         (map (fun m => configparser.write_section
                                          ("mypy-" +:+ m)
                                          [("ignore_errors", "true")])
                              IGNORED_MODULES))),
        sample_config).
Proof.
  assert (Hread : readlines fs_empty (strict_path sample_config)
                  = Ok (lines_of decl_empty)) by by_evaluation.
  assert (Hnone : parse_modules (lines_of decl_empty) = []) by by_evaluation.
  split; [exact Hread|]. split; [exact Hnone|].
  apply (empty_declaration_sections sample_ver fs_empty sample_config
           (lines_of decl_empty) Hread Hnone).
  - reflexivity.
  - intros m Hm. apply list_elem_of_In in Hm. revert m Hm.
    apply Forall_forall.
    apply (bool_decide_unpack
             (Forall (fun m => is_dir fs_empty
                                 (replace "." "/" (slice_to_neg 2 m)) = true)
                     IGNORED_MODULES)).
    vm_compute. exact I.
Defined.

(** C8 on [decl_duplicate]: the component is declared twice and its file
    exists; the existence check passes both entries, nothing is reported,
    and the second [add_section] for the component raises
    [DuplicateSectionError] out of the call. *)
Lemma duplicate_entry_raises :
  readlines fs_duplicate (strict_path sample_config)
  = Ok (lines_of decl_duplicate)
  /\ parse_modules (lines_of decl_duplicate)
     = ["homeassistant.components.foo"; "homeassistant.components.foo"]
  /\ generate_and_validate sample_ver fs_duplicate sample_config
     = (Raise (DuplicateSectionError "mypy-homeassistant.components.foo"),
        sample_config).
Proof.
  split; [apply readlines_sample|]. split; by_evaluation.
Qed.

(** On [fs_valid] the section names are distinct and the call returns. *)
Lemma returns_without_raising_at_valid :
  readlines fs_valid (strict_path sample_config) = Ok (lines_of decl_valid)
  /\ exists text,
       generate_and_validate sample_ver fs_valid sample_config
       = (Ok text,
          append_errors
            (validation_errors fs_valid (parse_modules (lines_of decl_valid)))
            sample_config).
Proof.
  assert (Hread : readlines fs_valid (strict_path sample_config)
                  = Ok (lines_of decl_valid)) by by_evaluation.
  split; [exact Hread|].
  apply (returns_without_raising sample_ver fs_valid sample_config
           (lines_of decl_valid) Hread).
  right. exact section_names_valid_NoDup.
Defined.


(** C2 on [fs_valid], where mypy.ini does not exist yet, in the context
    that a first [validate] left: [generate] creates the file and [validate]
    then returns with the context unchanged. *)
Lemma generate_then_validate_at_valid :
  cache cached_config !! "mypy_config" = Some text_valid
  /\ fs_valid !! mypy_ini_path cached_config = None
  /\ exists fs',
       generate cached_config fs_valid = (Ok tt, fs')
       /\ validate sample_ver fs' cached_config = (Ok tt, cached_config).
Proof.
  assert (Hcache : cache cached_config !! "mypy_config" = Some text_valid)
    by by_evaluation.
  assert (Hnone : fs_valid !! mypy_ini_path cached_config = None)
    by by_evaluation.
  split; [exact Hcache|]. split; [exact Hnone|].
  destruct (generate_then_validate_is_clean sample_ver fs_valid cached_config
              text_valid)
    as (fs' & Hgen & _ & _ & _ & Hval).
  - by_evaluation.
  - by_evaluation.
  - exact Hcache.
  - rewrite Hnone. discriminate.
  - exists fs'. split; [exact Hgen | exact Hval].
Defined.

(** ** What the rendering can do *)

Section RenderingOutcome.

Import configparser.

Variable ver : list Z.

Lemma build_document_raise (doc : list (string * list (string * string))) :
  Forall usable_name (map fst doc) ->
  forall cp e,
    rfold add_full_section doc cp = Raise e ->
    exists n, e = DuplicateSectionError n
              /\ In n (map fst doc)
              /\ ~ NoDup (map fst (sections cp) ++ map fst doc).
Proof.
  induction doc as [|[n items] doc IH]; intros Hgood cp e H.
  - discriminate.
  - inversion Hgood as [|? ? Hn Hrest]; subst.
    cbn [rfold] in H. rewrite add_full_section_cases in H by exact Hn.
    cbn [map fst].
    destruct (has_section n cp) eqn:Hs.
    + injection H as <-. exists n. split; [reflexivity|]. split; [now left|].
      intros Hnd. apply has_section_In in Hs.
      apply NoDup_app in Hnd as (_ & Hnd & _).
      apply (Hnd n); [now apply list_elem_of_In | now left].
    + cbn [rbind] in H. apply IH in H as (m & -> & Hin & Hnd); [|exact Hrest].
      exists m. split; [reflexivity|]. split; [now right|].
      cbn [sections] in Hnd. rewrite map_app in Hnd.
      cbn [map fst stored_section] in Hnd.
      now rewrite <- app_assoc in Hnd.
Qed.

Lemma build_document_distinct (doc : list (string * list (string * string))) :
  Forall usable_name (map fst doc) ->
  forall cp cp',
    rfold add_full_section doc cp = Ok cp' ->
    NoDup (map fst (sections cp)) ->
    NoDup (map fst (sections cp) ++ map fst doc).
Proof.
  induction doc as [|[n items] doc IH]; intros Hgood cp cp' H Hnd.
  - simpl. now rewrite app_nil_r.
  - inversion Hgood as [|? ? Hn Hrest]; subst.
    cbn [rfold] in H. rewrite add_full_section_cases in H by exact Hn.
    destruct (has_section n cp) eqn:Hs; [discriminate|].
    cbn [rbind] in H. apply IH in H; [|exact Hrest|].
    + cbn [sections] in H. rewrite map_app in H.
      cbn [map fst stored_section] in H. now rewrite <- app_assoc in H.
    + cbn [sections]. rewrite map_app. cbn [map fst stored_section].
      apply NoDup_app. split; [exact Hnd|]. split; [|apply NoDup_singleton].
      intros x Hx Hx'. apply list_elem_of_singleton in Hx'. subst x.
      apply list_elem_of_In in Hx. apply has_section_In in Hx. congruence.
Qed.

Lemma render_config_distinct (strict core : list string) (text : string) :
  render_config ver strict core = Ok text -> NoDup (section_names strict core).
Proof.
  rewrite render_config_document. intros Hr.
  destruct (rfold add_full_section _ new) as [cp|e] eqn:Hb; [|discriminate].
  apply build_document_distinct in Hb.
  - cbn [sections new map app] in Hb.
    now rewrite settings_document_names in Hb.
  - apply settings_document_usable.
  - constructor.
Qed.

Lemma render_config_raise (strict core : list string) (e : Exn) :
  render_config ver strict core = Raise e ->
  ~ NoDup (section_names strict core)
  /\ exists n, In n (section_names strict core) /\ e = DuplicateSectionError n.
Proof.
  rewrite render_config_document. intros Hr.
  destruct (rfold add_full_section _ new) as [cp|e'] eqn:Hb; [discriminate|].
  cbn [rbind] in Hr. injection Hr as <-.
  apply build_document_raise in Hb as (n & -> & Hin & Hnd);
    [|apply settings_document_usable].
  cbn [sections new map app] in Hnd.
  rewrite settings_document_names in Hnd, Hin.
  split; [exact Hnd|]. now exists n.
Qed.

(** X1: the rendering returns exactly when the section names are pairwise
    distinct, and then returns the header followed by the trimmed settings
    document; otherwise it raises [DuplicateSectionError] for one of the
    section names, and nothing else. *)
Theorem render_config_outcome (strict core : list string) :
  match render_config ver strict core with
  | Ok text =>
      NoDup (section_names strict core)
      /\ text = HEADER
                +:+ strip (document_text (settings_document ver strict core))
  | Raise e =>
      ~ NoDup (section_names strict core)
      /\ exists n, In n (section_names strict core)
                   /\ e = DuplicateSectionError n
  end.
Proof.
  destruct (render_config ver strict core) as [text|e] eqn:Hr.
  - split; [now apply render_config_distinct with text
           | now apply render_config_inv].
  - now apply render_config_raise.
Qed.

End RenderingOutcome.

(** ** When section names clash *)

Section Clashes.

Lemma partition_permutation (parsed : list string) :
  Permutation (component_strict parsed ++ core_strict parsed) parsed.
Proof.
  unfold component_strict, core_strict.
  induction parsed as [|m l IH]; [reflexivity|]. cbn [List.filter].
  destruct (startswith m "homeassistant.components"); cbn [negb].
  - cbn [app]. now constructor.
  - rewrite <- Permutation_middle. now constructor.
Qed.

Lemma section_names_prefixed (strict core : list string) :
  section_names strict core
  = "mypy"
    :: map (fun m => "mypy-" +:+ m)
         (core ++ "homeassistant.components.*"
               :: strict ++ "tests.*" :: IGNORED_MODULES).
Proof.
  unfold section_names. rewrite map_app. cbn [map]. rewrite map_app.
  reflexivity.
Qed.

Lemma NoDup_prefixed (l : list string) :
  NoDup ("mypy" :: map (fun m => "mypy-" +:+ m) l) <-> NoDup l.
Proof.
  rewrite NoDup_cons.
  change (map (fun m => "mypy-" +:+ m) l) with ((fun m => "mypy-" +:+ m) <$> l).
  rewrite (NoDup_fmap (fun m => "mypy-" +:+ m)).
  split; [tauto|]. intros H. split; [|exact H].
  intros Hin. apply list_elem_of_fmap in Hin as (x & Hx & _). discriminate Hx.
Qed.

Lemma ignored_NoDup : NoDup IGNORED_MODULES.
Proof. apply (bool_decide_unpack (NoDup IGNORED_MODULES)). vm_compute. exact I. Qed.

Lemma wildcard_not_ignored : ~ In "homeassistant.components.*" IGNORED_MODULES.
Proof.
  intros H. apply list_elem_of_In in H. revert H.
  apply (bool_decide_unpack (_ ∉ IGNORED_MODULES)). vm_compute. exact I.
Qed.

Lemma tests_not_ignored : ~ In "tests.*" IGNORED_MODULES.
Proof.
  intros H. apply ignored_are_components in H. discriminate H.
Qed.

Lemma section_names_distinct (parsed : list string) :
  NoDup (section_names (component_strict parsed) (core_strict parsed))
  <-> NoDup parsed
      /\ ~ In "homeassistant.components.*" parsed
      /\ ~ In "tests.*" parsed
      /\ (forall m, In m parsed -> ~ In m IGNORED_MODULES).
Proof.
  rewrite section_names_prefixed, NoDup_prefixed.
  assert (Hnd : NoDup parsed
                <-> NoDup (component_strict parsed ++ core_strict parsed))
    by (now rewrite partition_permutation).
  rewrite Hnd. clear Hnd.
  assert (Hs : forall m, In m (component_strict parsed)
                         <-> In m parsed
                             /\ startswith m "homeassistant.components" = true).
  { intros m. unfold component_strict. now rewrite filter_In. }
  assert (Hc : forall m, In m (core_strict parsed)
                         <-> In m parsed
                             /\ startswith m "homeassistant.components" = false).
  { intros m. unfold core_strict. rewrite filter_In, negb_true_iff. tauto. }
  rewrite !NoDup_app, !NoDup_cons, !NoDup_app, !NoDup_cons.
  pose proof ignored_NoDup as Hign.
  pose proof wildcard_not_ignored as Hw.
  pose proof tests_not_ignored as Ht.
  pose proof ignored_are_components as Hic.
  setoid_rewrite list_elem_of_In.
  split.
  - intros (Hcore & Hdis & Hwild & Hstrict & Hdis2 & Htests & _).
    repeat split.
    + exact Hstrict.
    + intros m Hm Hm'. apply Hs in Hm as [_ Hm]. apply Hc in Hm' as [_ Hm'].
      congruence.
    + exact Hcore.
    + intros H. apply Hwild. apply in_or_app. left. apply Hs. now split.
    + intros H. apply (Hdis "tests.*"); [apply Hc; now split|].
      right. apply in_or_app. right. now left.
    + intros m Hm Hi.
      destruct (Hs m) as [_ Hs']. specialize (Hs' (conj Hm (Hic m Hi))).
      apply (Hdis2 m Hs'). now right.
  - intros ((Hstrict & Hdis & Hcore) & Hwild & Htests & Hnone).
    repeat split; try assumption.
    + intros m Hm [<-|Hm'].
      * apply Hc in Hm as [_ Hm]. discriminate Hm.
      * apply Hc in Hm as [Hp Hm]. apply in_app_or in Hm' as [Hm'|[<-|Hm']].
        -- apply Hs in Hm' as [_ Hm']. congruence.
        -- now apply Htests.
        -- now apply (Hnone m).
    + intros H. apply in_app_or in H as [H|[H|H]].
      * apply Hwild. now apply Hs in H as [H _].
      * discriminate H.
      * now apply Hw.
    + intros m Hm [<-|Hm'].
      * apply Hs in Hm as [_ Hm]. discriminate Hm.
      * apply Hs in Hm as [Hp _]. now apply (Hnone m).
Qed.

End Clashes.

(** ** How a call can end *)

Section Outcomes.

Variable ver : list Z.

Lemma contradiction_reported (fs : FS) (parsed : list string) (m : string) :
  In m parsed -> In m IGNORED_MODULES ->
  In (contradictory_error m) (validation_errors fs parsed).
Proof.
  intros Hin Hign. unfold validation_errors. apply in_or_app. left.
  apply in_flat_map. exists m. split.
  - unfold component_strict. apply filter_In. split; [exact Hin|].
    now apply ignored_are_components.
  - unfold strict_list_errors. apply in_or_app. right.
    rewrite bool_decide_eq_true_2 by now apply list_elem_of_In.
    now left.
Qed.

(** X2: when the declaration file can be read and validation leaves no
    error of this plugin, the call returns a text (rather than raising)
    exactly when no module is declared twice and neither
    "homeassistant.components.*" nor "tests.*" is declared. *)
Theorem returns_iff_no_clash (fs : FS) (c : Config) (lines : list string) :
  readlines fs (strict_path c) = Ok lines ->
  any_mypy_error (errors c ++ validation_errors fs (parse_modules lines))
  = false ->
  (exists text, fst (generate_and_validate ver fs c) = Ok text)
  <-> NoDup (parse_modules lines)
      /\ ~ In "homeassistant.components.*" (parse_modules lines)
      /\ ~ In "tests.*" (parse_modules lines).
Proof.
  intros Hread Hclean.
  rewrite generate_and_validate_unfold, Hread. cbv zeta. cbn [fst].
  unfold append_errors at 1. cbn [errors]. rewrite Hclean.
  destruct (validation_clean _ _ _ Hclean) as [_ Hnone].
  assert (Hign : forall m, In m (parse_modules lines) ->
                           ~ In m IGNORED_MODULES).
  { intros m Hm Hi.
    pose proof (contradiction_reported fs _ m Hm Hi) as H.
    now rewrite Hnone in H. }
  split.
  - intros [text Hr]. apply render_config_distinct in Hr.
    apply section_names_distinct in Hr. tauto.
  - intros (Hnd & Hw & Ht). eexists. apply render_config_ok.
    apply section_names_distinct. tauto.
Qed.

(** X3: a [DuplicateSectionError] never comes with a report.  When the
    call raises it for a section name, the declaration file was read, the
    context held no error of this plugin, the validation passes found
    nothing, the name is one of the section names, which are not pairwise
    distinct, and the context is exactly as it was before the call. *)
Theorem duplicate_section_error_reports_nothing
  (fs : FS) (c c' : Config) (n : string) :
  generate_and_validate ver fs c = (Raise (DuplicateSectionError n), c') ->
  c' = c
  /\ any_mypy_error (errors c) = false
  /\ exists lines,
       readlines fs (strict_path c) = Ok lines
       /\ validation_errors fs (parse_modules lines) = []
       /\ In n (section_names (component_strict (parse_modules lines))
                              (core_strict (parse_modules lines)))
       /\ ~ NoDup (section_names (component_strict (parse_modules lines))
                                 (core_strict (parse_modules lines))).
Proof.
  rewrite generate_and_validate_unfold.
  destruct (readlines fs (strict_path c)) as [lines|e'] eqn:Hread.
  - cbv zeta. unfold append_errors at 1. cbn [errors].
    destruct (any_mypy_error _) eqn:Hany; [discriminate|].
    destruct (validation_clean _ _ _ Hany) as [Hbefore Hnone].
    rewrite Hnone, append_errors_nil. intros H. injection H as Hr <-.
    split; [reflexivity|]. split; [exact Hbefore|].
    exists lines. split; [reflexivity|]. split; [exact Hnone|].
    apply render_config_raise in Hr as (Hnd & m & Hin & Hm).
    injection Hm as ->. split; [exact Hin | exact Hnd].
  - intros H. injection H as -> _.
    unfold readlines, read_text in Hread.
    destruct (fs !! strict_path c) as [[content|]|]; discriminate.
Qed.

End Outcomes.

(** ** The cases of [validate] *)

Section ValidateCases.

Variable ver : list Z.

(** The cache plays no part in [generate_and_validate]. *)
Lemma generate_and_validate_cache_free (fs : FS) (c : Config)
    (k : gmap string string) :
  generate_and_validate ver fs (mkConfig (root c) (errors c) k)
  = (fst (generate_and_validate ver fs c),
     mkConfig (root (snd (generate_and_validate ver fs c)))
              (errors (snd (generate_and_validate ver fs c))) k).
Proof.
  rewrite !generate_and_validate_unfold. unfold strict_path. cbn [root].
  destruct (readlines fs (path_join (root c) ".strict-typing")) as [lines|e];
    reflexivity.
Qed.

(** X4: when validation leaves an error of this plugin, [validate] returns
    without looking at mypy.ini (which may be missing, stale or a
    directory): the context gains the validation errors and nothing else,
    and the cache holds the empty string. *)
Theorem validate_skips_comparison (fs : FS) (c : Config) (lines : list string) :
  readlines fs (strict_path c) = Ok lines ->
  any_mypy_error (errors c ++ validation_errors fs (parse_modules lines))
  = true ->
  validate ver fs c
  = (Ok tt,
     mkConfig (root c)
              (errors c ++ validation_errors fs (parse_modules lines))
              (<["mypy_config" := ""]> (cache c))).
Proof.
  intros Hread Hany.
  rewrite validate_unfold, generate_and_validate_unfold, Hread. cbv zeta.
  unfold append_errors. cbn [errors root cache]. now rewrite Hany.
Qed.

(** A call that returned and left no error of this plugin left the context
    as it was. *)
Lemma generate_and_validate_clean (fs : FS) (c : Config) (content : string) :
  fst (generate_and_validate ver fs c) = Ok content ->
  any_mypy_error (errors (snd (generate_and_validate ver fs c))) = false ->
  generate_and_validate ver fs c = (Ok content, c)
  /\ any_mypy_error (errors c) = false.
Proof.
  rewrite generate_and_validate_unfold.
  destruct (readlines fs (strict_path c)) as [lines|e]; [|discriminate].
  cbv zeta. cbn [fst snd]. unfold append_errors at 1 2. cbn [errors].
  intros Hret Hclean.
  destruct (validation_clean _ _ _ Hclean) as [Hc0 Hnone].
  rewrite Hclean in Hret. rewrite Hnone, append_errors_nil, Hc0, Hret.
  now split.
Qed.

(** X5: when the generation returned [content] and left no error of this
    plugin, and mypy.ini is a file, [validate] caches [content] and adds one
    fixable "not up to date" error exactly when the file, read with
    newline translation and trimmed, differs from [content]; otherwise it
    adds nothing. *)
Theorem validate_reports_stale_file (fs : FS) (c : Config)
    (content raw : string) :
  fst (generate_and_validate ver fs c) = Ok content ->
  any_mypy_error (errors (snd (generate_and_validate ver fs c))) = false ->
  fs !! mypy_ini_path c = Some (File raw) ->
  validate ver fs c
  = (Ok tt,
     mkConfig (root c)
              (errors c
               ++ (if String.eqb (strip (universal_newlines raw)) content
                   then [] else [stale_error]))
              (<["mypy_config" := content]> (cache c))).
Proof.
  intros Hret Hclean Hfile.
  destruct (generate_and_validate_clean fs c content Hret Hclean) as [Hgav Hc0].
  rewrite validate_unfold, Hgav. cbv zeta. rewrite Hc0.
  unfold read_text. rewrite Hfile.
  destruct (String.eqb (strip (universal_newlines raw)) content); cbn [negb].
  - now rewrite app_nil_r.
  - reflexivity.
Qed.

(** X6: when the generation returned and left no error of this plugin but
    mypy.ini does not exist, [validate] raises [FileNotFoundError] for it
    after the cache has been filled; in the context so left, [generate]
    creates the file and a second [validate] returns without any change. *)
Theorem validate_without_file_raises (fs : FS) (c : Config) (content : string) :
  fst (generate_and_validate ver fs c) = Ok content ->
  any_mypy_error (errors (snd (generate_and_validate ver fs c))) = false ->
  fs !! mypy_ini_path c = None ->
  validate ver fs c
  = (Raise (FileNotFoundError (mypy_ini_path c)),
     mkConfig (root c) (errors c) (<["mypy_config" := content]> (cache c)))
  /\ exists fs',
       generate (snd (validate ver fs c)) fs = (Ok tt, fs')
       /\ validate ver fs' (snd (validate ver fs c))
          = (Ok tt, snd (validate ver fs c)).
Proof.
  intros Hret Hclean Hfile.
  destruct (generate_and_validate_clean fs c content Hret Hclean) as [Hgav Hc0].
  assert (Hval : validate ver fs c
                 = (Raise (FileNotFoundError (mypy_ini_path c)),
                    mkConfig (root c) (errors c)
                             (<["mypy_config" := content]> (cache c)))).
  { rewrite validate_unfold, Hgav. cbv zeta. rewrite Hc0.
    unfold read_text. now rewrite Hfile. }
  split; [exact Hval|]. rewrite Hval. cbn [snd].
  destruct (round_trip_from_cache ver fs
              (mkConfig (root c) (errors c)
                        (<["mypy_config" := content]> (cache c))) content)
    as (fs' & Hgen & _ & _ & _ & Hagain).
  - rewrite generate_and_validate_cache_free. cbn [fst]. exact Hret.
  - rewrite generate_and_validate_cache_free. cbn [snd errors]. exact Hclean.
  - cbn [cache]. apply lookup_insert_eq.
  - unfold mypy_ini_path in *. cbn [root]. rewrite Hfile. discriminate.
  - now exists fs'.
Qed.

(** X7: when the declaration file does not exist, both
    [generate_and_validate] and [validate] raise [FileNotFoundError] for it
    and leave the context, cache included, untouched. *)
Theorem unreadable_declaration_propagates (fs : FS) (c : Config) :
  fs !! strict_path c = None ->
  generate_and_validate ver fs c
  = (Raise (FileNotFoundError (strict_path c)), c)
  /\ validate ver fs c = (Raise (FileNotFoundError (strict_path c)), c).
Proof.
  intros Hnone.
  assert (Hgav : generate_and_validate ver fs c
                 = (Raise (FileNotFoundError (strict_path c)), c)).
  { rewrite generate_and_validate_unfold. unfold readlines, read_text.
    now rewrite Hnone. }
  split; [exact Hgav|]. now rewrite validate_unfold, Hgav.
Qed.

End ValidateCases.

(** ** The cases of [generate], and what is reported *)

Section GenerateCases.

Variable ver : list Z.

(** X8: in a tree whose root folder is there, as it holds mypy.ini or the
    declaration file, with a cached text and a target that is not a
    directory, [generate] returns, the target then holds the cached text
    followed by one line feed, no other path is changed, and running
    [generate] again changes nothing. *)
Theorem generate_writes_cached_text (fs : FS) (c : Config) (content : string) :
  cache c !! "mypy_config" = Some content ->
  is_file fs (mypy_ini_path c) = true \/ is_file fs (strict_path c) = true ->
  fs !! mypy_ini_path c <> Some Dir ->
  exists fs',
    generate c fs = (Ok tt, fs')
    /\ fs' !! mypy_ini_path c = Some (File (content +:+ nl))
    /\ (forall p, p <> mypy_ini_path c -> fs' !! p = fs !! p)
    /\ generate c fs' = (Ok tt, fs').
Proof.
  intros Hcache _ Hnd.
  exists (<[mypy_ini_path c := File (content +:+ nl)]> fs).
  assert (Hgen : forall fs0, fs0 !! mypy_ini_path c <> Some Dir ->
            generate c fs0
            = (Ok tt, <[mypy_ini_path c := File (content +:+ nl)]> fs0)).
  { intros fs0 H0. unfold generate, open_w. fold (mypy_ini_path c).
    destruct (fs0 !! mypy_ini_path c) as [[|]|] eqn:Hl; try congruence;
      rewrite Hcache; unfold write_text; now rewrite insert_insert_eq. }
  split; [now apply Hgen|]. split; [apply lookup_insert_eq|]. split.
  - intros p Hp. now apply lookup_insert_ne.
  - rewrite Hgen.
    + now rewrite insert_insert_eq.
    + rewrite lookup_insert_eq. discriminate.
Qed.

(** X9: without a cached text, [generate] raises [KeyError] only after it
    has opened the target: a mypy.ini that was there is left empty, whatever
    it held, and no other path is changed. *)
Theorem generate_without_cache_truncates
  (fs : FS) (c : Config) (old : string) :
  cache c !! "mypy_config" = None ->
  fs !! mypy_ini_path c = Some (File old) ->
  fst (generate c fs) = Raise (KeyError "mypy_config")
  /\ read_text (snd (generate c fs)) (mypy_ini_path c) = Ok ""
  /\ (forall p, p <> mypy_ini_path c -> snd (generate c fs) !! p = fs !! p).
Proof.
  intros Hcache Hold. unfold generate, open_w. fold (mypy_ini_path c).
  assert (H : (match fs !! mypy_ini_path c with
               | Some Dir => Raise (IsADirectoryError (mypy_ini_path c))
               | _ => Ok (<[mypy_ini_path c := File ""]> fs)
               end) = Ok (<[mypy_ini_path c := File ""]> fs)).
  { now rewrite Hold. }
  rewrite H, Hcache. cbn [fst snd]. split; [reflexivity|]. split.
  - unfold read_text. now rewrite lookup_insert_eq.
  - intros p Hp. now apply lookup_insert_ne.
Qed.

(** X10: after a [validate] that found errors the cache holds the empty
    string, so that a [generate] run in that context replaces mypy.ini by a
    single line feed. *)
Theorem failed_validate_then_generate (fs : FS) (c : Config)
    (lines : list string) :
  readlines fs (strict_path c) = Ok lines ->
  any_mypy_error (errors c ++ validation_errors fs (parse_modules lines))
  = true ->
  fs !! mypy_ini_path c <> Some Dir ->
  cache (snd (validate ver fs c)) !! "mypy_config" = Some ""
  /\ generate (snd (validate ver fs c)) fs
     = (Ok tt, <[mypy_ini_path c := File nl]> fs).
Proof.
  intros Hread Hany Hnd.
  assert (Hval : validate ver fs c
            = (Ok tt,
               mkConfig (root c)
                 (errors c ++ validation_errors fs (parse_modules lines))
                 (<["mypy_config" := ""]> (cache c)))).
  { rewrite validate_unfold, generate_and_validate_unfold, Hread. cbv zeta.
    unfold append_errors. cbn [errors root cache]. now rewrite Hany. }
  rewrite Hval. cbn [snd cache]. split; [apply lookup_insert_eq|].
  unfold generate, open_w. cbn [root cache]. fold (mypy_ini_path c).
  rewrite lookup_insert_eq.
  destruct (fs !! mypy_ini_path c) as [[|]|]; try congruence;
    unfold write_text; now rewrite insert_insert_eq.
Qed.

(** X11: whenever the generation returns, [validate] leaves the returned
    text in the cache under "mypy_config", whatever happens afterwards
    (errors present, file stale, file missing). *)
Theorem validate_caches_result (fs : FS) (c : Config) (content : string) :
  fst (generate_and_validate ver fs c) = Ok content ->
  cache (snd (validate ver fs c)) !! "mypy_config" = Some content.
Proof.
  intros Hret. rewrite validate_unfold.
  destruct (generate_and_validate ver fs c) as [r c1]. cbn [fst] in Hret.
  subst r. cbv zeta.
  destruct (any_mypy_error (errors c1)); [apply lookup_insert_eq|].
  destruct (read_text fs (mypy_ini_path c)) as [text|e];
    [|apply lookup_insert_eq].
  destruct (negb _); apply lookup_insert_eq.
Qed.

End GenerateCases.

Section Reports.

Variable ver : list Z.

(** X12: every error that [generate_and_validate] reports is tagged
    "mypy_config" and is not fixable. *)
Theorem reported_errors_not_fixable (fs : FS) (c : Config) (e : Error) :
  In e (reported ver fs c) -> plugin e = "mypy_config" /\ fixable e = false.
Proof.
  unfold reported. rewrite generate_and_validate_unfold.
  destruct (readlines fs (strict_path c)) as [lines|x].
  - cbn [snd append_errors errors]. rewrite drop_app_length.
    unfold validation_errors. intros Hin.
    apply in_app_or in Hin as [Hin|Hin].
    + apply in_flat_map in Hin as (m & _ & Hin).
      unfold strict_list_errors in Hin.
      apply in_app_or in Hin as [Hin|Hin].
      * destruct (is_misplaced m); [|contradiction].
        destruct Hin as [<-|[]]. now split.
      * destruct (bool_decide _); [|contradiction].
        destruct Hin as [<-|[]]. now split.
    + unfold existence_errors in Hin. apply in_map_iff in Hin.
      destruct Hin as (m & <- & _). unfold missing_error.
      now destruct (endswith m ".*").
  - cbn [snd]. rewrite drop_all. contradiction.
Qed.

(** X13: when the call returns, the text is empty exactly when the sink
    holds an error of this plugin: a rendered text is never empty. *)
Theorem empty_text_iff_error (fs : FS) (c : Config) (text : string) :
  fst (generate_and_validate ver fs c) = Ok text ->
  text = ""
  <-> any_mypy_error (errors (snd (generate_and_validate ver fs c))) = true.
Proof.
  rewrite generate_and_validate_unfold.
  destruct (readlines fs (strict_path c)) as [lines|x]; [|discriminate].
  cbv zeta. cbn [fst snd]. unfold append_errors at 1 2. cbn [errors].
  destruct (any_mypy_error _).
  - intros H. injection H as <-. tauto.
  - intros H. apply render_config_inv in H. subst text.
    split; [|discriminate]. intros H. discriminate H.
Qed.

(** X14: when the folder of an ignored module is missing, the call reports
    "is not a folder" for it and returns the empty string, whatever the
    declaration file holds. *)
Theorem missing_ignored_folder_blocks (fs : FS) (c : Config)
    (lines : list string) (m : string) :
  readlines fs (strict_path c) = Ok lines ->
  In m IGNORED_MODULES ->
  is_dir fs (replace "." "/" (slice_to_neg 2 m)) = false ->
  In (mkError "mypy_config" ("Module '" +:+ m +:+ " is not a folder") false)
     (reported ver fs c)
  /\ fst (generate_and_validate ver fs c) = Ok "".
Proof.
  intros Hread Hign Hdir.
  assert (Hin : In (mkError "mypy_config"
                            ("Module '" +:+ m +:+ " is not a folder") false)
                   (validation_errors fs (parse_modules lines))).
  { unfold validation_errors. apply in_or_app. right.
    unfold existence_errors. apply in_map_iff. exists m. split.
    - unfold missing_error. now rewrite (ignored_are_wildcards m Hign).
    - apply filter_In. split.
      + apply in_or_app. right. apply in_or_app. now right.
      + unfold module_exists, module_path.
        now rewrite (ignored_are_wildcards m Hign), Hdir. }
  split.
  - unfold reported. rewrite generate_and_validate_unfold, Hread.
    cbn [snd append_errors errors]. now rewrite drop_app_length.
  - rewrite generate_and_validate_unfold, Hread. cbv zeta. cbn [fst].
    unfold append_errors. cbn [errors].
    rewrite (any_mypy_error_In _ _ (in_or_app _ _ _ (or_intror Hin)));
      reflexivity.
Qed.

(** X15: the context does not forget: after a call that reported
    something, a second call in the same context returns the empty string on
    any tree, a fully valid one included, and adds what it finds after the
    earlier errors. *)
Theorem earlier_error_blocks_later_calls (fs fs' : FS) (c : Config)
    (lines lines' : list string) :
  readlines fs (strict_path c) = Ok lines ->
  validation_errors fs (parse_modules lines) <> [] ->
  readlines fs' (strict_path c) = Ok lines' ->
  generate_and_validate ver fs' (snd (generate_and_validate ver fs c))
  = (Ok "",
     append_errors
       (validation_errors fs (parse_modules lines)
        ++ validation_errors fs' (parse_modules lines')) c).
Proof.
  intros Hread Hne Hread'.
  rewrite (generate_and_validate_unfold ver fs c), Hread. cbn [snd].
  rewrite generate_and_validate_unfold. unfold strict_path in *.
  cbn [root append_errors]. rewrite Hread'. cbv zeta.
  unfold append_errors. cbn [root errors cache].
  rewrite <- app_assoc.
  destruct (validation_errors fs (parse_modules lines)) as [|e l] eqn:Hv;
    [congruence|].
  assert (He : plugin e = "mypy_config").
  { apply (validation_errors_tagged fs (parse_modules lines)).
    rewrite Hv. now left. }
  rewrite (any_mypy_error_In e); [reflexivity| |exact He].
  apply in_or_app. right. now left.
Qed.

(** X16: the classification loop yields the entries that start with
    "homeassistant.components" and those that do not, each in declaration
    order, and together they are a rearrangement of the declaration list:
    nothing is lost or duplicated. *)
Theorem classify_keeps_order (parsed : list string) :
  fst (classify parsed)
  = List.filter (fun m => startswith m "homeassistant.components") parsed
  /\ snd (classify parsed)
     = List.filter (fun m => negb (startswith m "homeassistant.components"))
                   parsed
  /\ Permutation (fst (classify parsed) ++ snd (classify parsed)) parsed.
Proof.
  rewrite classify_partition. cbn [fst snd].
  split; [reflexivity|]. split; [reflexivity|]. apply partition_permutation.
Qed.

End Reports.

(** ** Trimmed module names and padded files *)

Lemma lstrip_all_space (t : string) :
  all_chars isspace t = true -> lstrip t = "".
Proof.
  induction t as [|c t IH]; [reflexivity|]. intros H. simpl in H.
  apply andb_prop in H as [Hc H]. simpl. rewrite Hc. now apply IH.
Qed.

Lemma lstrip_prepend_space (a s : string) :
  all_chars isspace a = true -> lstrip (a +:+ s) = lstrip s.
Proof.
  induction a as [|c a IH]; [reflexivity|]. intros H. simpl in H.
  apply andb_prop in H as [Hc H]. rewrite append_cons. simpl. rewrite Hc.
  now apply IH.
Qed.

Lemma strip_append_space (s t : string) :
  all_chars isspace t = true -> strip (s +:+ t) = strip s.
Proof.
  intros Ht. unfold strip. induction s as [|c s IH].
  - rewrite append_nil_l. now rewrite (lstrip_all_space t Ht).
  - rewrite append_cons. simpl. destruct (isspace c); [exact IH|].
    rewrite <- append_cons. now apply rstrip_append_space.
Qed.

Lemma strip_prepend_space (a s : string) :
  all_chars isspace a = true -> strip (a +:+ s) = strip s.
Proof. intros Ha. unfold strip. now rewrite lstrip_prepend_space. Qed.

Lemma lstrip_head (s : string) :
  lstrip s = "" \/ exists c r, lstrip s = String c r /\ isspace c = false.
Proof.
  induction s as [|c s IH]; [now left|]. simpl.
  destruct (isspace c) eqn:Hc; [exact IH|]. right. now exists c, s.
Qed.

Lemma strip_idem (s : string) : strip (strip s) = strip s.
Proof.
  unfold strip. destruct (lstrip_head s) as [->|(c & r & -> & Hc)];
    [reflexivity|].
  assert (H : exists r', rstrip (String c r) = String c r').
  { simpl. destruct (rstrip r); [rewrite Hc|]; eexists; reflexivity. }
  destruct H as [r' Hr]. rewrite Hr at 1. simpl lstrip. rewrite Hc.
  rewrite <- Hr. apply rstrip_idem.
Qed.

Lemma splitlines_shape (s : string) :
  Forall (fun l => exists b, all_chars (fun c => negb (Ascii.eqb c LF)) b = true
                             /\ (l = b \/ l = b +:+ nl))
         (splitlines_keepends s).
Proof.
  induction s as [|c s IH]; [constructor|]. simpl.
  destruct (Ascii.eqb c LF) eqn:Hc.
  - apply Forall_cons. split; [|exact IH]. exists "".
    split; [reflexivity|]. right. apply Ascii.eqb_eq in Hc. now subst c.
  - destruct (splitlines_keepends s) as [|l ls].
    + apply Forall_cons. split; [|constructor]. exists (String c "").
      split; [|now left]. simpl. now rewrite Hc.
    + apply Forall_cons in IH as [(b & Hb & Hl) Hls]. apply Forall_cons.
      split; [|exact Hls]. exists (String c b). split.
      * simpl. now rewrite Hc, Hb.
      * destruct Hl as [->| ->]; [now left | now right].
Qed.

Lemma all_chars_and (P Q : ascii -> bool) (s : string) :
  all_chars (fun c => P c && Q c) s = all_chars P s && all_chars Q s.
Proof.
  induction s as [|c s IH]; [reflexivity|]. simpl. rewrite IH.
  destruct (P c), (Q c), (all_chars P s), (all_chars Q s); reflexivity.
Qed.

(** X17: every module name parsed from a file that was read is non-empty,
    has no whitespace at either end, and holds neither a line feed nor a
    carriage return. *)
Theorem parsed_modules_well_formed (fs : FS) (p : string)
    (lines : list string) (m : string) :
  readlines fs p = Ok lines ->
  In m (parse_modules lines) ->
  m <> "" /\ strip m = m /\ all_chars not_newline m = true.
Proof.
  intros Hread Hin. unfold parse_modules in Hin.
  apply in_map_iff in Hin as (l & <- & Hl).
  apply filter_In in Hl as [Hl Hkeep].
  apply andb_prop in Hkeep as [Hne _]. apply negb_true_iff in Hne.
  split; [intros H; rewrite H in Hne; discriminate|].
  split; [apply strip_idem|].
  unfold not_newline.
  change (fun c => negb (Ascii.eqb c LF) && negb (Ascii.eqb c CR))
    with (fun c => (fun c => negb (Ascii.eqb c LF)) c && not_cr c).
  rewrite all_chars_and. apply andb_true_intro. split.
  - unfold readlines, read_text in Hread.
    destruct (fs !! p) as [[content|]|]; try discriminate.
    simpl in Hread. injection Hread as <-.
    pose proof (splitlines_shape (universal_newlines content)) as Hs.
    rewrite Forall_forall in Hs. apply list_elem_of_In in Hl.
    destruct (Hs l Hl) as (b & Hb & [->| ->]).
    + now apply all_chars_strip.
    + rewrite strip_append_space by reflexivity. now apply all_chars_strip.
  - apply all_chars_strip.
    pose proof (readlines_no_cr _ _ _ Hread) as Hs.
    rewrite Forall_forall in Hs. apply Hs. now apply list_elem_of_In.
Qed.

Section Padding.

Variable ver : list Z.

Lemma universal_newlines_crlf (s : string) :
  all_chars not_cr s = true -> universal_newlines (crlf s) = s.
Proof.
  unfold crlf. induction s as [|c s IH]; [reflexivity|]. intros H.
  simpl in H. apply andb_prop in H as [Hc H]. specialize (IH H).
  simpl. destruct (Ascii.eqb c LF) eqn:Hlf.
  - apply Ascii.eqb_eq in Hlf. subst c.
    change (String CR nl +:+ replace LF (String CR nl) s)
      with (String CR (String LF (replace LF (String CR nl) s))).
    simpl. now rewrite IH.
  - simpl. unfold not_cr in Hc. apply negb_true_iff in Hc. rewrite Hc.
    now rewrite IH.
Qed.

Lemma rendered_text_strip (strict core : list string) :
  strip (HEADER +:+ strip (document_text (settings_document ver strict core)))
  = HEADER +:+ strip (document_text (settings_document ver strict core)).
Proof.
  rewrite <- (strip_append_space _ nl) by reflexivity.
  apply rendered_text_trimmed.
Qed.

(** X18: when the generation returned [content] and left no error of this
    plugin, [validate] accepts every mypy.ini that, after newline
    translation, is [content] with whitespace before and after it: nothing
    is reported. *)
Theorem validate_ignores_padding (fs : FS) (c : Config)
    (content raw before after : string) :
  fst (generate_and_validate ver fs c) = Ok content ->
  any_mypy_error (errors (snd (generate_and_validate ver fs c))) = false ->
  fs !! mypy_ini_path c = Some (File raw) ->
  universal_newlines raw = before +:+ content +:+ after ->
  all_chars isspace before = true ->
  all_chars isspace after = true ->
  validate ver fs c
  = (Ok tt,
     mkConfig (root c) (errors c) (<["mypy_config" := content]> (cache c))).
Proof.
  intros Hret Hclean Hfile Hraw Hb Ha.
  destruct (generate_and_validate_clean ver fs c content Hret Hclean)
    as [Hgav Hc0].
  assert (Hshape : exists strict core,
             content = HEADER +:+ strip (document_text
                                           (settings_document ver strict core))).
  { revert Hret Hclean. rewrite generate_and_validate_unfold.
    destruct (readlines fs (strict_path c)) as [lines|e]; [|discriminate].
    cbv zeta. cbn [fst snd]. unfold append_errors. cbn [errors].
    intros Hret Hclean. rewrite Hclean in Hret.
    apply render_config_inv in Hret. eauto. }
  destruct Hshape as (strict & core & Hshape).
  rewrite validate_unfold, Hgav. cbv zeta. rewrite Hc0.
  unfold read_text. rewrite Hfile, Hraw.
  rewrite strip_prepend_space by exact Hb.
  rewrite strip_append_space by exact Ha.
  rewrite Hshape, rendered_text_strip, String.eqb_refl. reflexivity.
Qed.

End Padding.

(** ** Line endings of the returned text *)

Section LineEndings.

Variable ver : list Z.

(** X19: the text that [generate_and_validate] returns never holds a
    carriage return, whatever the line endings of the declaration file. *)
Theorem returned_text_has_no_cr (fs : FS) (c : Config) (text : string) :
  fst (generate_and_validate ver fs c) = Ok text ->
  all_chars not_cr text = true.
Proof.
  rewrite generate_and_validate_unfold.
  destruct (readlines fs (strict_path c)) as [lines|e] eqn:Hread;
    [|discriminate].
  cbv zeta. cbn [fst].
  destruct (any_mypy_error _).
  - intros H. injection H as <-. reflexivity.
  - intros H. apply render_config_inv in H. subst text.
    rewrite all_chars_append.
    rewrite all_chars_strip; [reflexivity|].
    apply document_text_no_cr, settings_document_no_cr;
      apply Forall_forall; intros m Hm; apply list_elem_of_In in Hm;
      apply filter_In in Hm as [Hm _]; apply list_elem_of_In in Hm;
      revert m Hm; apply Forall_forall, parse_modules_all_chars;
      apply (readlines_no_cr _ _ _ Hread).
Qed.

End LineEndings.

(** ** Sections of the declared modules *)

Section DeclaredSections.

Variable ver : list Z.

Lemma document_text_app (l1 l2 : list (string * list (string * string))) :
  document_text (l1 ++ l2) = document_text l1 +:+ document_text l2.
Proof.
  unfold document_text. induction l1 as [|e l1 IH]; [reflexivity|].
  cbn [app map]. rewrite !concat_cons, IH. now rewrite append_assoc.
Qed.

Lemma document_text_cons (e : string * list (string * string))
    (l : list (string * list (string * string))) :
  document_text (e :: l)
  = configparser.write_section (fst e) (snd e) +:+ document_text l.
Proof. unfold document_text. cbn [map]. apply concat_cons. Qed.

Lemma write_section_head (n : string) (items : list (string * string)) :
  exists r, configparser.write_section n items = String "[" r.
Proof. unfold configparser.write_section. eexists. reflexivity. Qed.

(** A section that is followed by another one is written out in full. *)
Lemma section_in_trimmed_text (l1 l2 : list (string * list (string * string)))
    (e e' : string * list (string * string)) :
  exists before after,
    strip (document_text (l1 ++ e :: e' :: l2))
    = before +:+ configparser.write_section (fst e) (snd e) +:+ after.
Proof.
  exists (document_text l1), (rstrip (document_text (e' :: l2))).
  assert (Hne : rstrip (document_text (e' :: l2)) <> "").
  { rewrite document_text_cons.
    destruct (write_section_head (fst e') (snd e')) as [r ->].
    rewrite append_cons. now apply rstrip_nonspace_head. }
  assert (Hne' : rstrip (configparser.write_section (fst e) (snd e)
                         +:+ document_text (e' :: l2)) <> "").
  { rewrite rstrip_append_nonempty by exact Hne.
    destruct (write_section_head (fst e) (snd e)) as [r ->].
    rewrite append_cons. discriminate. }
  rewrite document_text_app, document_text_cons.
  unfold strip.
  assert (Hl : lstrip (document_text l1
                       +:+ configparser.write_section (fst e) (snd e)
                       +:+ document_text (e' :: l2))
               = document_text l1
                 +:+ configparser.write_section (fst e) (snd e)
                 +:+ document_text (e' :: l2)).
  { destruct l1 as [|e0 l1].
    - change (document_text []) with "". rewrite append_nil_l.
      destruct (write_section_head (fst e) (snd e)) as [r ->].
      rewrite append_cons. reflexivity.
    - rewrite document_text_cons.
      destruct (write_section_head (fst e0) (snd e0)) as [r ->].
      rewrite !append_cons. reflexivity. }
  rewrite Hl.
  rewrite rstrip_append_nonempty by exact Hne'.
  now rewrite rstrip_append_nonempty by exact Hne.
Qed.

Lemma section_before_others (l1 rest : list (string * list (string * string)))
    (e : string * list (string * string)) :
  rest <> [] ->
  exists before after,
    strip (document_text (l1 ++ e :: rest))
    = before +:+ configparser.write_section (fst e) (snd e) +:+ after.
Proof.
  destruct rest as [|e' l2]; [congruence|]. intros _.
  apply section_in_trimmed_text.
Qed.

(** X20: whenever a non-empty text is returned, every declared module has
    its own section in it, written in full: [mypy-<module>] with every
    strict option "true" for a component, with disallow_any_generics =
    "true" for a core module. *)
Theorem declared_modules_get_sections (fs : FS) (c : Config)
    (lines : list string) (text m : string) :
  readlines fs (strict_path c) = Ok lines ->
  fst (generate_and_validate ver fs c) = Ok text ->
  text <> "" ->
  In m (parse_modules lines) ->
  exists before after,
    text
    = before
      +:+ configparser.write_section ("mypy-" +:+ m)
            (map (fun key => (key, "true"))
                 (if startswith m "homeassistant.components"
                  then STRICT_SETTINGS else STRICT_SETTINGS_CORE))
      +:+ after.
Proof.
  intros Hread Hret Hne Hin. revert Hret.
  rewrite generate_and_validate_unfold, Hread. cbv zeta. cbn [fst].
  destruct (any_mypy_error _); [intros H; injection H as <-; congruence|].
  intros Hret. apply render_config_inv in Hret. subst text.
  assert (Hdoc : exists l1 rest,
             rest <> []
             /\ settings_document ver (component_strict (parse_modules lines))
                  (core_strict (parse_modules lines))
                = l1 ++ ("mypy-" +:+ m,
                         map (fun key => (key, "true"))
                             (if startswith m "homeassistant.components"
                              then STRICT_SETTINGS else STRICT_SETTINGS_CORE))
                        :: rest).
  { unfold settings_document, strict_options.
    destruct (startswith m "homeassistant.components") eqn:Hp.
    - assert (Hs : In m (component_strict (parse_modules lines))).
      { unfold component_strict. apply filter_In. now split. }
      apply in_split in Hs as (s1 & s2 & ->).
      rewrite map_app. cbn [map].
      exists (("mypy", GENERAL_SETTINGS ver
                         ++ map (fun key => (key, "true")) STRICT_SETTINGS)
              :: map (fun m => ("mypy-" +:+ m,
                                map (fun key => (key, "true"))
                                    STRICT_SETTINGS_CORE))
                     (core_strict (parse_modules lines))
              ++ ("mypy-homeassistant.components.*",
                  map (fun key => (key, "false")) STRICT_SETTINGS)
              :: map (fun m => ("mypy-" +:+ m,
                                map (fun key => (key, "true")) STRICT_SETTINGS))
                     s1).
      exists (map (fun m => ("mypy-" +:+ m,
                             map (fun key => (key, "true")) STRICT_SETTINGS))
                  s2
              ++ ("mypy-tests.*",
                  map (fun key => (key, "false")) STRICT_SETTINGS)
              :: map (fun m => ("mypy-" +:+ m, [("ignore_errors", "true")]))
                     IGNORED_MODULES).
      split; [now destruct (map _ s2)|].
      rewrite <- !app_comm_cons, <- !app_assoc, <- !app_comm_cons.
      reflexivity.
    - assert (Hs : In m (core_strict (parse_modules lines))).
      { unfold core_strict. apply filter_In. split; [exact Hin|].
        now rewrite Hp. }
      apply in_split in Hs as (s1 & s2 & ->).
      rewrite map_app. cbn [map].
      exists (("mypy", GENERAL_SETTINGS ver
                         ++ map (fun key => (key, "true")) STRICT_SETTINGS)
              :: map (fun m => ("mypy-" +:+ m,
                                map (fun key => (key, "true"))
                                    STRICT_SETTINGS_CORE))
                     s1).
      exists (map (fun m => ("mypy-" +:+ m,
                             map (fun key => (key, "true"))
                                 STRICT_SETTINGS_CORE))
                  s2
              ++ ("mypy-homeassistant.components.*",
                  map (fun key => (key, "false")) STRICT_SETTINGS)
              :: map (fun m => ("mypy-" +:+ m,
                                map (fun key => (key, "true")) STRICT_SETTINGS))
                     (component_strict (parse_modules lines))
              ++ ("mypy-tests.*",
                  map (fun key => (key, "false")) STRICT_SETTINGS)
              :: map (fun m => ("mypy-" +:+ m, [("ignore_errors", "true")]))
                     IGNORED_MODULES).
      split; [now destruct (map _ s2)|].
      rewrite <- !app_comm_cons, <- !app_assoc, <- !app_comm_cons.
      reflexivity. }
  destruct Hdoc as (l1 & rest & Hrest & Hdoc). rewrite Hdoc.
  match goal with
  | |- context [l1 ++ ?e :: rest] =>
      destruct (section_before_others l1 rest e Hrest)
        as (before & after & Heq)
  end.
  rewrite Heq. cbn [fst snd]. exists (HEADER +:+ before), after.
  now rewrite !append_assoc.
Qed.

End DeclaredSections.

(** ** The further theorems at sample inputs *)

(** X2 on [fs_valid]: two distinct entries, neither of them a section the
    program adds itself, and the call returns. *)
Lemma returns_iff_no_clash_at_valid :
  readlines fs_valid (strict_path sample_config) = Ok (lines_of decl_valid)
  /\ NoDup (parse_modules (lines_of decl_valid))
  /\ exists text,
       fst (generate_and_validate sample_ver fs_valid sample_config) = Ok text.
Proof.
  assert (Hread : readlines fs_valid (strict_path sample_config)
                  = Ok (lines_of decl_valid)) by by_evaluation.
  assert (Hnd : NoDup (parse_modules (lines_of decl_valid))).
  { apply (bool_decide_unpack (NoDup _)). vm_compute. exact I. }
  split; [exact Hread|]. split; [exact Hnd|].
  apply (returns_iff_no_clash sample_ver fs_valid sample_config
           (lines_of decl_valid) Hread).
  - by_evaluation.
  - split; [exact Hnd|]. split; vm_compute; intuition discriminate.
Defined.

(** X3 on [fs_duplicate]: the call raises for the section of the repeated
    entry and the context is untouched. *)
Lemma duplicate_section_error_at_duplicate :
  generate_and_validate sample_ver fs_duplicate sample_config
  = (Raise (DuplicateSectionError "mypy-homeassistant.components.foo"),
     sample_config)
  /\ any_mypy_error (errors sample_config) = false
  /\ exists lines,
       readlines fs_duplicate (strict_path sample_config) = Ok lines
       /\ validation_errors fs_duplicate (parse_modules lines) = []
       /\ In "mypy-homeassistant.components.foo"
             (section_names (component_strict (parse_modules lines))
                            (core_strict (parse_modules lines))).
Proof.
  assert (Hgav : generate_and_validate sample_ver fs_duplicate sample_config
                 = (Raise (DuplicateSectionError
                             "mypy-homeassistant.components.foo"),
                    sample_config)) by by_evaluation.
  split; [exact Hgav|].
  destruct (duplicate_section_error_reports_nothing sample_ver fs_duplicate
              sample_config sample_config _ Hgav)
    as (_ & Hbefore & lines & Hread & Hnone & Hin & _).
  split; [exact Hbefore|]. exists lines.
  split; [exact Hread|]. split; [exact Hnone | exact Hin].
Defined.

(** X4 on [fs_missing], which has no mypy.ini: [validate] returns all the
    same. *)
Lemma validate_skips_comparison_at_missing :
  fs_missing !! mypy_ini_path sample_config = None
  /\ fst (validate sample_ver fs_missing sample_config) = Ok tt
  /\ cache (snd (validate sample_ver fs_missing sample_config)) !! "mypy_config"
     = Some "".
Proof.
  split; [by_evaluation|].
  rewrite (validate_skips_comparison sample_ver fs_missing sample_config
             (lines_of decl_missing)).
  - split; [reflexivity|]. by_evaluation.
  - by_evaluation.
  - by_evaluation.
Defined.

(** X5 on [fs_stale]: the outdated file earns the one fixable error. *)
Lemma validate_reports_stale_file_at_stale :
  fs_stale !! mypy_ini_path sample_config = Some (File ("[mypy]" +:+ nl))
  /\ errors (snd (validate sample_ver fs_stale sample_config))
     = [mkError "mypy_config"
          "File mypy.ini is not up to date. Run python3 -m script.hassfest"
          true].
Proof.
  assert (Hfile : fs_stale !! mypy_ini_path sample_config
                  = Some (File ("[mypy]" +:+ nl))) by by_evaluation.
  split; [exact Hfile|].
  rewrite (validate_reports_stale_file sample_ver fs_stale sample_config
             text_valid ("[mypy]" +:+ nl)).
  - by_evaluation.
  - by_evaluation.
  - by_evaluation.
  - exact Hfile.
Defined.

(** X6 on [fs_valid], which has no mypy.ini yet. *)
Lemma validate_without_file_raises_at_valid :
  fs_valid !! mypy_ini_path sample_config = None
  /\ fst (validate sample_ver fs_valid sample_config)
     = Raise (FileNotFoundError "/repo/mypy.ini")
  /\ exists fs',
       generate (snd (validate sample_ver fs_valid sample_config)) fs_valid
       = (Ok tt, fs')
       /\ validate sample_ver fs'
            (snd (validate sample_ver fs_valid sample_config))
          = (Ok tt, snd (validate sample_ver fs_valid sample_config)).
Proof.
  assert (Hnone : fs_valid !! mypy_ini_path sample_config = None)
    by by_evaluation.
  split; [exact Hnone|].
  destruct (validate_without_file_raises sample_ver fs_valid sample_config
              text_valid) as [Hval Hnext].
  - by_evaluation.
  - by_evaluation.
  - exact Hnone.
  - split; [now rewrite Hval | exact Hnext].
Defined.

(** X7 on the empty tree. *)
Lemma unreadable_declaration_at_nothing :
  fs_nothing !! strict_path sample_config = None
  /\ generate_and_validate sample_ver fs_nothing sample_config
     = (Raise (FileNotFoundError "/repo/.strict-typing"), sample_config)
  /\ validate sample_ver fs_nothing sample_config
     = (Raise (FileNotFoundError "/repo/.strict-typing"), sample_config).
Proof.
  assert (Hnone : fs_nothing !! strict_path sample_config = None)
    by by_evaluation.
  split; [exact Hnone|].
  exact (unreadable_declaration_propagates sample_ver fs_nothing sample_config
           Hnone).
Defined.

(** X8 on [fs_stale] with the cache filled: the outdated file is replaced. *)
Lemma generate_writes_cached_text_at_stale :
  cache cached_config !! "mypy_config" = Some text_valid
  /\ is_file fs_stale (mypy_ini_path cached_config) = true
  /\ exists fs',
       generate cached_config fs_stale = (Ok tt, fs')
       /\ fs' !! "/repo/mypy.ini" = Some (File (text_valid +:+ nl))
       /\ fs' !! "/repo/.strict-typing" = fs_stale !! "/repo/.strict-typing"
       /\ generate cached_config fs' = (Ok tt, fs').
Proof.
  assert (Hcache : cache cached_config !! "mypy_config" = Some text_valid)
    by by_evaluation.
  split; [exact Hcache|]. split; [by_evaluation|].
  destruct (generate_writes_cached_text fs_stale cached_config text_valid
              Hcache) as (fs' & Hgen & Hfile & Hframe & Hagain).
  - left. by_evaluation.
  - vm_compute. discriminate.
  - exists fs'. split; [exact Hgen|]. split; [exact Hfile|].
    split; [|exact Hagain]. apply Hframe. vm_compute. discriminate.
Defined.

(** X9 on [fs_stale] with an empty cache: the file that was there is
    emptied. *)
Lemma generate_without_cache_at_stale :
  cache sample_config !! "mypy_config" = None
  /\ fs_stale !! mypy_ini_path sample_config = Some (File ("[mypy]" +:+ nl))
  /\ fst (generate sample_config fs_stale) = Raise (KeyError "mypy_config")
  /\ read_text (snd (generate sample_config fs_stale))
               (mypy_ini_path sample_config) = Ok "".
Proof.
  assert (Hcache : cache sample_config !! "mypy_config" = None)
    by by_evaluation.
  assert (Hold : fs_stale !! mypy_ini_path sample_config
                 = Some (File ("[mypy]" +:+ nl))) by by_evaluation.
  split; [exact Hcache|]. split; [exact Hold|].
  destruct (generate_without_cache_truncates fs_stale sample_config
              ("[mypy]" +:+ nl) Hcache Hold) as (Hraise & Hempty & _).
  split; [exact Hraise | exact Hempty].
Defined.

(** X10 on [fs_missing]. *)
Lemma failed_validate_then_generate_at_missing :
  readlines fs_missing (strict_path sample_config) = Ok (lines_of decl_missing)
  /\ generate (snd (validate sample_ver fs_missing sample_config)) fs_missing
     = (Ok tt, <["/repo/mypy.ini" := File nl]> fs_missing).
Proof.
  assert (Hread : readlines fs_missing (strict_path sample_config)
                  = Ok (lines_of decl_missing)) by by_evaluation.
  split; [exact Hread|].
  apply (failed_validate_then_generate sample_ver fs_missing sample_config
           (lines_of decl_missing) Hread).
  - by_evaluation.
  - vm_compute. discriminate.
Defined.

(** X11 on [fs_stale]: the text is cached although the file is stale. *)
Lemma validate_caches_result_at_stale :
  fst (generate_and_validate sample_ver fs_stale sample_config) = Ok text_valid
  /\ cache (snd (validate sample_ver fs_stale sample_config)) !! "mypy_config"
     = Some text_valid.
Proof.
  assert (Hret : fst (generate_and_validate sample_ver fs_stale sample_config)
                 = Ok text_valid) by by_evaluation.
  split; [exact Hret|].
  exact (validate_caches_result sample_ver fs_stale sample_config text_valid
           Hret).
Defined.

(** X12 on [fs_missing]. *)
Lemma reported_errors_not_fixable_at_missing :
  In (mkError "mypy_config" "Module 'homeassistant/missing doesn't exist" false)
     (reported sample_ver fs_missing sample_config)
  /\ plugin (mkError "mypy_config"
               "Module 'homeassistant/missing doesn't exist" false)
     = "mypy_config"
  /\ fixable (mkError "mypy_config"
                "Module 'homeassistant/missing doesn't exist" false) = false.
Proof.
  assert (Hin : In (mkError "mypy_config"
                      "Module 'homeassistant/missing doesn't exist" false)
                   (reported sample_ver fs_missing sample_config))
    by (vm_compute; right; now left).
  split; [exact Hin|].
  exact (reported_errors_not_fixable sample_ver fs_missing sample_config _ Hin).
Defined.

(** X13 on [fs_valid]. *)
Lemma empty_text_iff_error_at_valid :
  fst (generate_and_validate sample_ver fs_valid sample_config) = Ok text_valid
  /\ (text_valid = ""
      <-> any_mypy_error
            (errors (snd (generate_and_validate sample_ver fs_valid
                            sample_config))) = true).
Proof.
  assert (Hret : fst (generate_and_validate sample_ver fs_valid sample_config)
                 = Ok text_valid) by by_evaluation.
  split; [exact Hret|].
  exact (empty_text_iff_error sample_ver fs_valid sample_config text_valid Hret).
Defined.

(** X14 on [fs_no_zwave]: an otherwise valid tree. *)
Lemma missing_ignored_folder_at_zwave :
  In "homeassistant.components.zwave.*" IGNORED_MODULES
  /\ is_dir fs_no_zwave "homeassistant/components/zwave" = false
  /\ In (mkError "mypy_config"
           "Module 'homeassistant.components.zwave.* is not a folder" false)
        (reported sample_ver fs_no_zwave sample_config)
  /\ fst (generate_and_validate sample_ver fs_no_zwave sample_config) = Ok "".
Proof.
  assert (Hign : In "homeassistant.components.zwave.*" IGNORED_MODULES).
  { apply list_elem_of_In.
    apply (bool_decide_unpack (_ ∈ IGNORED_MODULES)). vm_compute. exact I. }
  assert (Hdir : is_dir fs_no_zwave "homeassistant/components/zwave" = false)
    by by_evaluation.
  split; [exact Hign|]. split; [exact Hdir|].
  apply (missing_ignored_folder_blocks sample_ver fs_no_zwave sample_config
           (lines_of decl_valid) "homeassistant.components.zwave.*").
  - by_evaluation.
  - exact Hign.
  - by_evaluation.
Defined.

(** X15: first [fs_missing], then the valid [fs_valid]. *)
Lemma earlier_error_blocks_at_valid :
  fst (generate_and_validate sample_ver fs_valid sample_config) = Ok text_valid
  /\ fst (generate_and_validate sample_ver fs_valid
            (snd (generate_and_validate sample_ver fs_missing sample_config)))
     = Ok "".
Proof.
  split; [by_evaluation|].
  rewrite (earlier_error_blocks_later_calls sample_ver fs_missing fs_valid
             sample_config (lines_of decl_missing) (lines_of decl_valid)).
  - reflexivity.
  - by_evaluation.
  - vm_compute. discriminate.
  - by_evaluation.
Defined.

(** X17 on [fs_indented]. *)
Lemma parsed_modules_well_formed_at_note :
  In "# note" (parse_modules (lines_of decl_indented))
  /\ "# note" <> "" /\ strip "# note" = "# note"
  /\ all_chars not_newline "# note" = true.
Proof.
  assert (Hin : In "# note" (parse_modules (lines_of decl_indented)))
    by (vm_compute; now left).
  split; [exact Hin|].
  apply (parsed_modules_well_formed fs_indented (strict_path sample_config)
           (lines_of decl_indented) "# note").
  - by_evaluation.
  - exact Hin.
Defined.

(** X18 on [fs_padded]: Windows line endings and blank lines around the
    text. *)
Lemma validate_ignores_padding_at_padded :
  fs_padded !! mypy_ini_path sample_config
  = Some (File (crlf (nl +:+ text_valid +:+ nl +:+ nl +:+ nl)))
  /\ validate sample_ver fs_padded sample_config
     = (Ok tt,
        mkConfig "/repo" [] (<["mypy_config" := text_valid]> ∅)).
Proof.
  assert (Hfile : fs_padded !! mypy_ini_path sample_config
            = Some (File (crlf (nl +:+ text_valid +:+ nl +:+ nl +:+ nl))))
    by by_evaluation.
  split; [exact Hfile|].
  apply (validate_ignores_padding sample_ver fs_padded sample_config
           text_valid (crlf (nl +:+ text_valid +:+ nl +:+ nl +:+ nl))
           nl (nl +:+ nl +:+ nl)).
  - by_evaluation.
  - by_evaluation.
  - exact Hfile.
  - by_evaluation.
  - by_evaluation.
  - by_evaluation.
Defined.

(** X19 on [fs_valid]. *)
Lemma returned_text_has_no_cr_at_valid :
  fst (generate_and_validate sample_ver fs_valid sample_config) = Ok text_valid
  /\ all_chars not_cr text_valid = true.
Proof.
  assert (Hret : fst (generate_and_validate sample_ver fs_valid sample_config)
                 = Ok text_valid) by by_evaluation.
  split; [exact Hret|].
  exact (returned_text_has_no_cr sample_ver fs_valid sample_config text_valid
           Hret).
Defined.

(** X20 on [fs_valid]: the strict component has its section, all strict
    options "true". *)
Lemma declared_modules_get_sections_at_foo :
  In "homeassistant.components.foo" (parse_modules (lines_of decl_valid))
  /\ text_valid <> ""
  /\ exists before after,
       text_valid
       = before
         +:+ configparser.write_section "mypy-homeassistant.components.foo"
               (map (fun key => (key, "true")) STRICT_SETTINGS)
         +:+ after.
Proof.
  assert (Hin : In "homeassistant.components.foo"
                   (parse_modules (lines_of decl_valid)))
    by (vm_compute; now left).
  assert (Hne : text_valid <> "") by (vm_compute; discriminate).
  split; [exact Hin|]. split; [exact Hne|].
  apply (declared_modules_get_sections sample_ver fs_valid sample_config
           (lines_of decl_valid) text_valid "homeassistant.components.foo").
  - by_evaluation.
  - by_evaluation.
  - exact Hne.
  - exact Hin.
Defined.
